(** * salt/proxy/junos.py: the Junos proxy-minion module

    A shallow embedding of [salt/proxy/junos.py] and the properties of its
    connection set-up ([init]), of the outbound-ssh handshake
    ([_launch_junos_proxy]) and of the registry operations ([conn],
    [get_serialized_facts], [ping], [shutdown]).

    Python dictionaries are [gmap]s with string keys, byte strings are
    [string]s, Python exceptions are values of [exn] carried by [result].
    The module is Python 2 code: [socket.recv] returns a [str], which the
    handshake compares with ['\r'] and ['\n'] and appends to [msg]. *)

From Stdlib Require Import ZArith Ascii String DecimalString.
From stdpp Require Import gmap strings list fin_maps.

Local Open Scope string_scope.
Local Open Scope Z_scope.

(** ** Python values *)

Set Warnings "-register-all".

(** The values that occur in the configuration ([opts], [opts['proxy']]),
    in the connection arguments and in the handshake record. *)
Inductive pyval :=
| PNone
| PBool (b : bool)
| PInt (n : Z)
| PStr (s : string)
| PDict (d : gmap string pyval).

(** Python's truth value, as used by [if x:]. *)
Definition truthy (v : pyval) : bool :=
  match v with
  | PNone => false
  | PBool b => b
  | PInt n => negb (n =? 0)
  | PStr s => negb (String.length s =? 0)%nat
  | PDict d => negb (bool_decide (d = ∅))
  end.

(** [x == None]. *)
Definition is_None (v : pyval) : bool :=
  match v with PNone => true | _ => false end.

(** ** Exceptions

    [exn] stands for the instances of subclasses of [Exception], which is
    what [except Exception] catches. *)
Inductive exn :=
| KeyError (k : string)
| ValueError
| TypeError
| AttributeError
| SdkError (what : string).

Inductive result (A : Type) :=
| Ok (a : A)
| Raise (e : exn).
Arguments Ok {A} a.
Arguments Raise {A} e.

Definition bind {A B} (r : result A) (k : A -> result B) : result B :=
  match r with
  | Ok a => k a
  | Raise e => Raise e
  end.

Declare Scope py_scope.
Delimit Scope py_scope with py.
Notation "x <- r ;; k" := (bind r (fun x => k))
  (at level 100, r at next level, right associativity) : py_scope.
Local Open Scope py_scope.

(** [d[k]] on a dictionary. *)
Definition getitem {V} (d : gmap string V) (k : string) : result V :=
  match d !! k with
  | Some v => Ok v
  | None => Raise (KeyError k)
  end.

(** ** Byte strings *)

Definition CR : ascii := "013"%char.
Definition LF : ascii := "010"%char.

(** [s.find(sub)]: the lowest index of [sub] in [s], or [-1]. *)
Definition find (sub s : string) : Z :=
  match String.index 0 sub s with
  | Some i => Z.of_nat i
  | None => -1
  end.

(** [s.split(sep)] for a non-empty [sep]: the pieces between the
    occurrences of [sep], found from left to right without overlap.
    [skip] counts the bytes of a matched separator still to pass over,
    [cur] is the piece being collected. *)
Fixpoint split_go (sep s : string) (skip : nat) (cur : string) : list string :=
  match s with
  | EmptyString => [cur]
  | String a s' =>
      match skip with
      | S k => split_go sep s' k cur
      | O =>
          if String.prefix sep s
          then cur :: split_go sep s' (String.length sep - 1) EmptyString
          else split_go sep s' O (cur +:+ String a EmptyString)
      end
  end.

Definition split (sep s : string) : list string := split_go sep s O EmptyString.

(** [str(n)] for an integer. *)
Definition str_of_int (n : Z) : string := NilZero.string_of_int (Z.to_int n).

(** ** The outbound-ssh handshake: [_launch_junos_proxy] *)

(** The client socket: byte [i] that the peer sends, [None] once the peer
    has closed the connection ([recv] then returns the empty string). *)
Definition socket := nat -> option ascii.

Definition of_bytes (s : string) : socket :=
  fun i => list_ascii_of_string s !! i.

(** [client.recv(1)] with [pos] bytes already read. *)
Definition recv1 (client : socket) (pos : nat) : string :=
  match client pos with
  | Some a => String a EmptyString
  | None => EmptyString
  end.

(** The local variables of the read loop, and the number of bytes read
    from the socket so far. *)
Record hs_state := HsState {
  val : gmap string pyval;
  msg : string;
  count : Z;
  pos : nat
}.

Definition hs_init : hs_state :=
  {| val := <["MSG-ID" := PNone]> (<["MSG-VER" := PNone]> (<["DEVICE-ID" := PNone]> ∅));
     msg := "";
     count := 3;
     pos := 0 |}.

(** [len(msg) < 100 and count > 0] *)
Definition hs_cond (st : hs_state) : bool :=
  (Z.of_nat (String.length (msg st)) <? 100) && (0 <? count st).

(** One pass through the body of the [while] loop. *)
Definition hs_body (client : socket) (st : hs_state) : result hs_state :=
  let c := recv1 client (pos st) in
  let pos' := (pos st + String.length c)%nat in
  if String.eqb c (String CR EmptyString) then
    Ok {| val := val st; msg := msg st; count := count st; pos := pos' |}
  else if String.eqb c (String LF EmptyString) then
    let count' := count st - 1 in
    if negb (find ":" (msg st) =? 0) then
      match split ": " (msg st) with
      | [key; value] =>
          Ok {| val := <[key := PStr value]> (val st); msg := ""; count := count'; pos := pos' |}
      | _ => Raise ValueError
      end
    else
      Ok {| val := val st; msg := msg st; count := count'; pos := pos' |}
  else
    Ok {| val := val st; msg := msg st +:+ c; count := count st; pos := pos' |}.

Inductive outcome (A : Type) :=
| Done (a : A)
| Raised (e : exn)
| Running (a : A).
Arguments Done {A} a.
Arguments Raised {A} e.
Arguments Running {A} a.

(** The [while] loop, run for at most [fuel] passes: [Running st] says the
    loop condition still holds in [st] after [fuel] passes. *)
Fixpoint hs_loop (fuel : nat) (client : socket) (st : hs_state) : outcome hs_state :=
  if hs_cond st then
    match fuel with
    | O => Running st
    | S fuel' =>
        match hs_body client st with
        | Ok st' => hs_loop fuel' client st'
        | Raise e => Raised e
        end
    end
  else Done st.

(** What the module does to the outside world. *)
Inductive event :=
| LogDebug (fmt : string) (args : list pyval)
| Popen (argv : list string)
| Listen (port : pyval) (backlog : Z)
| DeviceNew (kwargs : gmap string pyval)
| DeviceOpen
| DeviceBind (name : string)
| DeviceClose.

(** The statements after the loop: [fd] is [client.fileno()]. *)
Definition spawn_worker (v : gmap string pyval) (fd : Z) : result (list event) :=
  proxy_id <- getitem v "DEVICE-ID";;
  let fh := fd in
  dev <- getitem v "DEVICE-ID";;
  if truthy dev then
    match dev with
    | PStr id =>
        Ok [LogDebug "Launching salt-proxy for {0}" [dev];
            Popen ["/usr/bin/salt-proxy"; "--proxyid"; id; "--sockfd"; str_of_int fh;
                   "--disable-keepalive"]]
    | _ => Raise TypeError
    end
  else Ok [].

(** [_launch_junos_proxy(client, addr)], with the read loop run for at most
    [fuel] passes. The result is the events of the call and the number of
    bytes read from [client]. *)
Definition _launch_junos_proxy (fuel : nat) (client : socket) (fd : Z)
  : outcome (list event * nat) :=
  match hs_loop fuel client hs_init with
  | Done st =>
      match spawn_worker (val st) fd with
      | Ok evs => Done (evs, pos st)
      | Raise e => Raised e
      end
  | Raised e => Raised e
  | Running st => Running ([], pos st)
  end.

(** ** The device SDK, [jnpr.junos], and the listening socket

    The session SDK is an external collaborator: the module only needs
    the calls below. A call that changes the device object returns the
    object after the call together with what the call returned or raised.
    [socket_bind port] is what [s.bind(('', port))] followed by
    [s.listen(5)] returns or raises: the port may be refused for what it
    is (not an integer, out of range) or by the operating system. *)
Inductive fact :=
| FNone
| FBool (b : bool)
| FInt (n : Z)
| FStr (s : string)
| FMap (native : bool) (m : gmap string fact).

Class SDK := {
  Device : Type;
  Device_new : gmap string pyval -> result Device;
  Device_open : Device -> Device * result unit;
  Device_bind : string -> Device -> Device * result unit;
  Device_close : Device -> Device * result unit;
  connected : Device -> bool;
  facts : Device -> gmap string fact;
  socket_bind : pyval -> result unit
}.

(** ** [init] *)

Definition optional_args : list string :=
  ["user"; "username"; "password"; "passwd"; "port"; "gather_facts"; "mode"; "baud";
   "attempts"; "auto_probe"; "ssh_private_key_file"; "ssh_config"; "normalize"].

(** [opts['proxy']] as a dictionary: [.keys()] needs one. *)
Definition proxy_of (opts : gmap string pyval) : result (gmap string pyval) :=
  p <- getitem opts "proxy";;
  match p with
  | PDict d => Ok d
  | _ => Raise AttributeError
  end.

(** [if 'username' in opts['proxy'].keys():
       opts['proxy']['user'] = opts['proxy'].pop('username')] *)
Definition alias_username (proxy : gmap string pyval) : gmap string pyval :=
  match proxy !! "username" with
  | Some u => <["user" := u]> (delete "username" proxy)
  | None => proxy
  end.

(** [for arg in optional_args: if arg in proxy_keys: args[arg] = opts['proxy'][arg]] *)
Definition copy_optional (proxy args : gmap string pyval) : gmap string pyval :=
  foldl (fun args arg =>
           match proxy !! arg with
           | Some v => <[arg := v]> args
           | None => args
           end) args optional_args.

(** The first part of [init], up to the end of the [for] loop: the
    configuration as [init] leaves it, and the connection arguments. *)
Definition init_args (opts : gmap string pyval)
  : result (gmap string pyval * gmap string pyval) :=
  let opts := <["multiprocessing" := PBool false]> opts in
  proxy <- proxy_of opts;;
  let args : gmap string pyval :=
    match proxy !! "host" with
    | Some h => {["host" := h]}
    | None => {["host" := PNone]}
    end in
  let args :=
    match opts !! "sock_fd" with
    | Some fd => <["sock_fd" := fd]> args
    | None => <["sock_fd" := PNone]> args
    end in
  let proxy := alias_username proxy in
  let opts := <["proxy" := PDict proxy]> opts in
  let args := copy_optional proxy args in
  Ok (opts, args).

Inductive init_exit :=
| Returned
| Listening
| Failed (e : exn).

Section Junos.
Context `{sdk : SDK}.

(** A value of the module-level dictionary [thisproxy]. *)
Inductive regval :=
| RDev (d : Device)
| RVal (v : pyval).

Record init_result := InitResult {
  exit : init_exit;
  opts_after : gmap string pyval;
  args_built : option (gmap string pyval);
  thisproxy_after : gmap string regval;
  init_trace : list event
}.

(** A call of a method that changes [thisproxy['conn']] in place. *)
Definition on_conn (thisproxy : gmap string regval) (f : Device -> Device * result unit)
  : gmap string regval * result unit :=
  match thisproxy !! "conn" with
  | Some (RDev d) => let '(d', r) := f d in (<["conn" := RDev d']> thisproxy, r)
  | Some (RVal _) => (thisproxy, Raise AttributeError)
  | None => (thisproxy, Raise (KeyError "conn"))
  end.

(** The direct-connect branch of [init]. *)
Definition init_connect (args : gmap string pyval) (thisproxy : gmap string regval)
  : init_exit * gmap string regval * list event :=
  match Device_new args with
  | Raise e => (Failed e, thisproxy, [DeviceNew args])
  | Ok d =>
      let reg := <["conn" := RDev d]> thisproxy in
      match on_conn reg Device_open with
      | (reg, Raise e) => (Failed e, reg, [DeviceNew args; DeviceOpen])
      | (reg, Ok _) =>
          match on_conn reg (Device_bind "cu") with
          | (reg, Raise e) => (Failed e, reg, [DeviceNew args; DeviceOpen; DeviceBind "cu"])
          | (reg, Ok _) =>
              match on_conn reg (Device_bind "sw") with
              | (reg, Raise e) =>
                  (Failed e, reg,
                   [DeviceNew args; DeviceOpen; DeviceBind "cu"; DeviceBind "sw"])
              | (reg, Ok _) =>
                  (Returned, <["initialized" := RVal (PBool true)]> reg,
                   [DeviceNew args; DeviceOpen; DeviceBind "cu"; DeviceBind "sw"])
              end
          end
      end
  end.

(** [init(opts)]. In listener mode the accept loop is entered and [init]
    does not return: the exit is [Listening]. *)
Definition init (opts : gmap string pyval) (thisproxy : gmap string regval) : init_result :=
  let log0 := LogDebug "Opening connection to junos" [] in
  match init_args opts with
  | Raise e =>
      {| exit := Failed e; opts_after := <["multiprocessing" := PBool false]> opts;
         args_built := None; thisproxy_after := thisproxy; init_trace := [log0] |}
  | Ok (opts', args) =>
      match getitem args "sock_fd", getitem args "host" with
      | Ok s, Ok h =>
          if is_None s && is_None h then
            let log1 := LogDebug "Listen for outbound-ssh Junos devices on port" [] in
            match (proxy <- proxy_of opts';; port <- getitem proxy "port";;
                   _ <- socket_bind port;; Ok port) with
            | Ok port =>
                {| exit := Listening; opts_after := opts'; args_built := Some args;
                   thisproxy_after := thisproxy;
                   init_trace := [log0; log1; Listen port 5] |}
            | Raise e =>
                {| exit := Failed e; opts_after := opts'; args_built := Some args;
                   thisproxy_after := thisproxy; init_trace := [log0; log1] |}
            end
          else
            let '(ex, reg, evs) := init_connect args thisproxy in
            {| exit := ex; opts_after := opts'; args_built := Some args;
               thisproxy_after := reg; init_trace := log0 :: evs |}
      | Raise e, _ | _, Raise e =>
          {| exit := Failed e; opts_after := opts'; args_built := Some args;
             thisproxy_after := thisproxy; init_trace := [log0] |}
      end
  end.

(** ** The registry operations *)

(** [thisproxy.get('initialized', False)] *)
Definition initialized (thisproxy : gmap string regval) : regval :=
  default (RVal (PBool false)) (thisproxy !! "initialized").

(** [thisproxy['conn']] *)
Definition conn (thisproxy : gmap string regval) : result regval :=
  getitem thisproxy "conn".

Definition proxytype : string := "junos".

(** An attribute of the device ([.facts], [.connected], [.close]) read off
    [thisproxy['conn']]. *)
Definition conn_device (thisproxy : gmap string regval) : result Device :=
  c <- conn thisproxy;;
  match c with
  | RDev d => Ok d
  | RVal _ => Raise AttributeError
  end.

(** [dict(x)]: a plain dictionary with the entries of a mapping. *)
Definition dict_of (x : fact) : result (gmap string fact) :=
  match x with
  | FMap _ m => Ok m
  | FStr EmptyString => Ok ∅
  | FStr _ => Raise ValueError
  | _ => Raise TypeError
  end.

(** [entry['object'] = dict(entry['object'])] for one routing engine. *)
Definition plain_object (entry : fact) : result fact :=
  match entry with
  | FMap native e =>
      obj <- getitem e "object";;
      o <- dict_of obj;;
      Ok (FMap native (<["object" := FMap false o]> e))
  | _ => Raise TypeError
  end.

Fixpoint plain_objects (res : list (string * fact)) (m : gmap string fact)
  : result (gmap string fact) :=
  match res with
  | [] => Ok m
  | (re, entry) :: res' =>
      entry' <- plain_object entry;;
      plain_objects res' (<[re := entry']> m)
  end.

(** The [for re in facts['junos_info']] loop. *)
Definition plain_junos_info (j : fact) : result fact :=
  match j with
  | FMap native m => m' <- plain_objects (map_to_list m) m;; Ok (FMap native m')
  | FStr EmptyString => Ok j
  | _ => Raise TypeError
  end.

(** [get_serialized_facts()]: the returned dictionary. [facts] is a
    shallow copy, so the assignment to [entry['object']] also changes the
    entry held by the device; the device's own facts are not followed
    here, only the value returned. *)
Definition get_serialized_facts (thisproxy : gmap string regval)
  : result (gmap string fact) :=
  d <- conn_device thisproxy;;
  let facts0 := facts d in
  facts1 <- match facts0 !! "version_info" with
            | Some vi => vi' <- dict_of vi;; Ok (<["version_info" := FMap false vi']> facts0)
            | None => Ok facts0
            end;;
  match facts1 !! "junos_info" with
  | Some j => j' <- plain_junos_info j;; Ok (<["junos_info" := j']> facts1)
  | None => Ok facts1
  end.

(** [ping()] *)
Definition ping (thisproxy : gmap string regval) : result bool :=
  d <- conn_device thisproxy;;
  Ok (connected d).

(** [try: body except Exception: pass] *)
Definition try_pass (body : result unit) : result unit :=
  match body with
  | Ok u => Ok u
  | Raise _ => Ok tt
  end.

(** [shutdown(opts)]: what the call returns or raises, [thisproxy] after
    the call, and the events of the call. *)
Definition shutdown (opts : gmap string pyval) (thisproxy : gmap string regval)
  : result unit * gmap string regval * list event :=
  match getitem opts "id" with
  | Raise e => (Raise e, thisproxy, [])
  | Ok id =>
      let log := LogDebug "Proxy module {0} shutting down!!" [id] in
      match conn_device thisproxy with
      | Raise e => (try_pass (Raise e), thisproxy, [log])
      | Ok _ =>
          let '(reg, r) := on_conn thisproxy Device_close in
          (try_pass r, reg, [log; DeviceClose])
      end
  end.

End Junos.

(** A stand-in for [bind] and [listen]: an integer port from 0 to 65535
    is accepted. *)
Definition bind_checks_port (port : pyval) : result unit :=
  match port with
  | PInt n => if (0 <=? n) && (n <=? 65535) then Ok tt else Raise (SdkError "OverflowError")
  | _ => Raise TypeError
  end.

(** A stand-in SDK for concrete runs: every call succeeds, except that
    [close] returns or raises [close_result]. *)
Definition mock_sdk (close_result : result unit) : SDK :=
  {| Device := gmap string pyval;
     Device_new := fun kwargs => Ok kwargs;
     Device_open := fun d => (d, Ok tt);
     Device_bind := fun _ d => (d, Ok tt);
     Device_close := fun d => (d, close_result);
     connected := fun _ => true;
     facts := fun _ => ∅;
     socket_bind := bind_checks_port |}.

(** A registry that holds a session of the stand-in SDK. *)
Definition mock_session (close_result : result unit)
  : gmap string (@regval (mock_sdk close_result)) :=
  {["conn" := @RDev (mock_sdk close_result) ∅]}.

(** The inputs of the handshake scenarios. *)
Definition LFs : string := String LF EmptyString.

Definition three_lines : string :=
  "MSG-ID: 42" +:+ LFs +:+ "MSG-VER: 1" +:+ LFs +:+ "DEVICE-ID: vmx1" +:+ LFs.

Definition garbage_first : string :=
  "garbageline" +:+ LFs +:+ "DEVICE-ID: vmx1" +:+ LFs +:+ "MSG-VER: 2" +:+ LFs.

(** The number of bytes other than carriage returns among the first [n]
    bytes of a stream. *)
Fixpoint non_cr (client : socket) (n : nat) : nat :=
  match n with
  | O => O
  | S n' =>
      (non_cr client n' +
       match client n' with
       | Some a => if Ascii.eqb a CR then 0 else 1
       | None => 0
       end)%nat
  end.

(** [sep] occurs somewhere in [s]. *)
Fixpoint contains (sep s : string) : bool :=
  match s with
  | EmptyString => String.prefix sep s
  | String _ s' => String.prefix sep s || contains sep s'
  end.

(** [val['DEVICE-ID']] is [None] or a string. *)
Definition device_id_field (v : gmap string pyval) : Prop :=
  v !! "DEVICE-ID" = Some PNone \/ exists id, v !! "DEVICE-ID" = Some (PStr id).

(** Configurations of the [init] scenarios. *)
Definition cfg_host : gmap string pyval :=
  {["proxy" := PDict {["host" := PStr "r1.example.net"]}]}.

Definition cfg_sock_fd : gmap string pyval :=
  <["sock_fd" := PInt 7]> {["proxy" := PDict ∅]}.

Definition cfg_passwd : gmap string pyval :=
  {["proxy" := PDict (<["passwd" := PStr "secret"]> {["host" := PStr "r1.example.net"]})]}.

Definition cfg_username : gmap string pyval :=
  {["proxy" := PDict (<["username" := PStr "x"]> {["host" := PStr "r1.example.net"]})]}.

Definition cfg_listen : gmap string pyval :=
  {["proxy" := PDict {["port" := PInt 2200]}]}.

(** ** Streams and header lines *)

(** The peer sends the bytes of [s] from position [p] on. *)
Fixpoint sends (client : socket) (p : nat) (s : string) : Prop :=
  match s with
  | EmptyString => True
  | String a s' => client p = Some a /\ sends client (S p) s'
  end.

(** Neither a carriage return nor a line feed occurs in [s]. *)
Fixpoint plain (s : string) : bool :=
  match s with
  | EmptyString => true
  | String a s' => negb (Ascii.eqb a CR) && negb (Ascii.eqb a LF) && plain s'
  end.

(** The end of a line on the wire: a line feed, after a carriage return
    when [crlf] is set. *)
Definition eol (crlf : bool) : string :=
  if crlf then String CR LFs else LFs.

(** A header line, without its end. *)
Definition header (key value : string) : string := key +:+ ": " +:+ value.

(** A header whose key and value are free of line ends and of the
    separator, which does not start with a colon and which fits below
    the 100-byte cap. *)
Definition well_formed (key value : string) : bool :=
  plain key && plain value &&
  negb (contains ": " key) && negb (contains ": " value) &&
  negb (String.prefix ":" (header key value)) &&
  (String.length (header key value) <? 100)%nat.

(** ** The accept loop of [init]

    [while True: client, addr = s.accept(); _launch_junos_proxy(client, addr)],
    run on the connections that [accept] returns, in order, each with its
    byte stream and its file descriptor. *)
Inductive loop_end :=
| Accepting           (* waiting in [accept] *)
| Reading             (* [fuel] passes of a read loop used up *)
| Escaped (e : exn).  (* an exception has left the loop *)

Fixpoint accept_loop (fuel : nat) (conns : list (socket * Z)) : list event * loop_end :=
  match conns with
  | [] => ([], Accepting)
  | (client, fd) :: conns' =>
      match _launch_junos_proxy fuel client fd with
      | Done (evs, _) =>
          let '(evs', e) := accept_loop fuel conns' in ((evs ++ evs')%list, e)
      | Raised e => ([], Escaped e)
      | Running _ => ([], Reading)
      end
  end.

(** ** [__virtual__] *)

(** [__virtual__()], with [HAS_JUNOS] saying whether [jnpr.junos] could
    be imported. *)
Definition __virtual__ (HAS_JUNOS : bool) : string + bool * string :=
  if negb HAS_JUNOS
  then inr (false, "Missing dependency: The junos proxy minion requires the 'jnpr' Python module.")
  else inl "junos".

(** ** Further notions and sample data *)

Definition wire_line (crlf : bool) (key value : string) : string :=
  header key value +:+ eol crlf.

(** The record of the handshake: the keys it has are kept, and every
    value is [None] or a string. *)
Definition record_inv (v0 v : gmap string pyval) : Prop :=
  (forall k, is_Some (v0 !! k) -> is_Some (v !! k)) /\
  (forall k x, v !! k = Some x -> x = PNone \/ exists s, x = PStr s).

(** What is left of the line budget and of the buffer. *)
Definition hs_measure (st : hs_state) : Z :=
  (count st - 1) * 100 + (100 - Z.of_nat (String.length (msg st))).

Definition crlf_lines : string :=
  wire_line true "DEVICE-ID" "vmx1" +:+ wire_line true "MSG-ID" "7" +:+
  wire_line false "X-SERIAL" "JN12".

Definition no_id_lines : string :=
  wire_line false "MSG-ID" "7" +:+ wire_line false "MSG-VER" "1" +:+
  wire_line false "X-SERIAL" "JN12".

Definition two_id_lines : string :=
  wire_line false "DEVICE-ID" "old" +:+ wire_line false "MSG-VER" "1" +:+
  wire_line true "DEVICE-ID" "vmx2".

Definition hundred : string := string_of_list_ascii (repeat "x"%char 100).

(** A configuration field that is missing or [None]. *)
Definition unset (o : option pyval) : bool :=
  match o with
  | None | Some PNone => true
  | Some _ => false
  end.

(** A stand-in SDK whose constructor and [open] may fail, with given facts. *)
Definition stub_sdk (new_error : option exn) (open_result : result unit)
    (device_facts : gmap string fact) : SDK :=
  {| Device := gmap string pyval;
     Device_new := fun kwargs => match new_error with Some e => Raise e | None => Ok kwargs end;
     Device_open := fun d => (d, open_result);
     Device_bind := fun _ d => (d, Ok tt);
     Device_close := fun d => (d, Ok tt);
     connected := fun _ => true;
     facts := fun _ => device_facts;
     socket_bind := bind_checks_port |}.

(** A stand-in SDK whose device refuses the connection: [open] raises,
    and the device is not connected. *)
Definition refusing_sdk : SDK :=
  {| Device := gmap string pyval;
     Device_new := fun kwargs => Ok kwargs;
     Device_open := fun d => (d, Raise (SdkError "ConnectRefusedError"));
     Device_bind := fun _ d => (d, Ok tt);
     Device_close := fun d => (d, Ok tt);
     connected := fun _ => false;
     facts := fun _ => ∅;
     socket_bind := bind_checks_port |}.

(** The registry states in which no device has come out of the
    constructor yet: [thisproxy] as the module creates it, and what calls
    of [init] that end before [open] is called, and calls of [shutdown],
    make of such a state. *)
Inductive no_handle `{sdk : SDK} : gmap string regval -> Prop :=
| no_handle_start : no_handle ∅
| no_handle_init (opts : gmap string pyval) (reg : gmap string regval) :
    no_handle reg ->
    DeviceOpen ∉ init_trace (init opts reg) ->
    no_handle (thisproxy_after (init opts reg))
| no_handle_shutdown (opts : gmap string pyval) (reg : gmap string regval) :
    no_handle reg ->
    no_handle (shutdown opts reg).1.2.

Definition sample_version : gmap string fact :=
  <["major" := FInt 15]> {["type" := FStr "R"]}.

Definition sample_re0 : gmap string fact :=
  <["object" := FMap true sample_version]> {["text" := FStr "15.1R1"]}.

Definition sample_facts : gmap string fact :=
  <["hostname" := FStr "r1"]>
    (<["version_info" := FMap true sample_version]>
       {["junos_info" := FMap false {["re0" := FMap false sample_re0]}]}).

Definition sample_session : gmap string (@regval (stub_sdk None (Ok tt) sample_facts)) :=
  {["conn" := @RDev (stub_sdk None (Ok tt) sample_facts) ∅]}.

Definition cfg_no_port : gmap string pyval := {["proxy" := PDict ∅]}.

Definition cfg_bad_port : gmap string pyval :=
  {["proxy" := PDict {["port" := PStr "ssh"]}]}.

Definition host_args : gmap string pyval :=
  <["sock_fd" := PNone]> {["host" := PStr "r1.example.net"]}.

Definition sample_serialized : gmap string fact :=
  <["hostname" := FStr "r1"]>
    (<["version_info" := FMap false sample_version]>
       {["junos_info" :=
           FMap false {["re0" := FMap false (<["object" := FMap false sample_version]>
                                               sample_re0)]}]}).

Definition served : list (socket * Z) :=
  [(of_bytes three_lines, 7); (of_bytes no_id_lines, 8)].

(** The state in which the read loop leaves on [three_lines]. *)
Definition hs_sample : hs_state :=
  {| val := <["MSG-ID" := PStr "42"]>
              (<["MSG-VER" := PStr "1"]> (<["DEVICE-ID" := PStr "vmx1"]> ∅));
     msg := ""; count := 0; pos := 38 |}.

(** * Properties *)

(** ** Byte strings *)

Example split_two : split ": " "MSG-ID: 42" = ["MSG-ID"; "42"].
Proof. reflexivity. Qed.

Example split_none : split ": " "garbageline" = ["garbageline"].
Proof. reflexivity. Qed.

Example split_three : split ": " "a: b: c" = ["a"; "b"; "c"].
Proof. reflexivity. Qed.

Example split_empty : split ": " "" = [""].
Proof. reflexivity. Qed.

Example split_edges : split ": " ": a: " = [""; "a"; ""].
Proof. reflexivity. Qed.

Example find_inside : find ":" "MSG-ID: 42" = 6.
Proof. reflexivity. Qed.

Example find_absent : find ":" "garbageline" = -1.
Proof. reflexivity. Qed.

Example find_first : find ":" ":x" = 0.
Proof. reflexivity. Qed.

Example str_of_int_samples :
  str_of_int 7 = "7" /\ str_of_int 0 = "0" /\ str_of_int 123 = "123" /\ str_of_int (-4) = "-4".
Proof. repeat split; reflexivity. Qed.

(** ** The read loop *)

Lemma hs_loop_exit fuel client st :
  hs_cond st = false -> hs_loop fuel client st = Done st.
Proof. intros H. destruct fuel; simpl; rewrite H; reflexivity. Qed.

(** More fuel does not change a loop that has left. *)
Lemma hs_loop_more_done n k client st st' :
  hs_loop n client st = Done st' -> hs_loop (n + k) client st = Done st'.
Proof.
  revert st. induction n as [|n IH]; intros st; simpl.
  - destruct (hs_cond st) eqn:E; [discriminate|].
    intros H. rewrite hs_loop_exit; assumption.
  - destruct (hs_cond st) eqn:E; [|auto].
    destruct (hs_body client st); [apply IH | auto].
Qed.

Lemma hs_loop_more_raised n k client st e :
  hs_loop n client st = Raised e -> hs_loop (n + k) client st = Raised e.
Proof.
  revert st. induction n as [|n IH]; intros st; simpl.
  - destruct (hs_cond st); discriminate.
  - destruct (hs_cond st) eqn:E; [|discriminate].
    destruct (hs_body client st); [apply IH | auto].
Qed.

(** C5: on the three well-formed lines, followed by any bytes, the read
    loop leaves after 38 bytes, that is after the third line feed, with
    the three fields filled in; no byte of the trailing data is read. *)
Theorem handshake_three_lines (trailing : string) (k : nat) :
  hs_loop (38 + k) (of_bytes (three_lines +:+ trailing)) hs_init =
  Done {| val := <["MSG-ID" := PStr "42"]>
                   (<["MSG-VER" := PStr "1"]> (<["DEVICE-ID" := PStr "vmx1"]> ∅));
          msg := "";
          count := 0;
          pos := String.length three_lines |}.
Proof.
  apply hs_loop_more_done. vm_compute. reflexivity.
Qed.

(** C1: on the input whose first line has no separator, the call raises
    [ValueError] at the first line feed: [find] returns -1, which is
    true, and [split] returns one piece where two are unpacked. *)
Theorem handshake_garbage_line_raises (k : nat) (fd : Z) :
  _launch_junos_proxy (12 + k) (of_bytes garbage_first) fd = Raised ValueError.
Proof.
  unfold _launch_junos_proxy.
  rewrite (hs_loop_more_raised 12 k _ _ ValueError); [reflexivity|].
  vm_compute. reflexivity.
Qed.

Lemma append_cons (b : ascii) (s t : string) : String b s +:+ t = String b (s +:+ t).
Proof. reflexivity. Qed.

Lemma append_snoc (cur s : string) (a : ascii) :
  (cur +:+ String a EmptyString) +:+ s = cur +:+ String a s.
Proof.
  induction cur as [|b cur IH]; [reflexivity|].
  rewrite !append_cons, IH. reflexivity.
Qed.

Lemma append_empty (s : string) : s +:+ EmptyString = s.
Proof.
  induction s as [|b s IH]; [reflexivity|].
  rewrite append_cons, IH. reflexivity.
Qed.

(** Without an occurrence of the separator, [split] returns one piece. *)
Lemma split_go_no_sep (sep s cur : string) :
  contains sep s = false -> split_go sep s O cur = [cur +:+ s].
Proof.
  revert cur. induction s as [|a s IH]; intros cur H; simpl.
  - now rewrite append_empty.
  - simpl in H. apply orb_false_elim in H as [Hp Hc].
    change (String.prefix sep (String a s)) with
      (match sep with
       | EmptyString => true
       | String b sep' => if Ascii.ascii_dec b a then String.prefix sep' s else false
       end).
    change (String.prefix sep (String a s)) with
      (match sep with
       | EmptyString => true
       | String b sep' => if Ascii.ascii_dec b a then String.prefix sep' s else false
       end) in Hp.
    rewrite Hp, IH by assumption. now rewrite append_snoc.
Qed.

(** A line without [': '] that does not start with a colon: the guard
    lets it through to the unpacking, which raises. *)
Lemma hs_body_unsplit_line_raises (client : socket) (st : hs_state) :
  client (pos st) = Some LF ->
  contains ": " (msg st) = false ->
  find ":" (msg st) <> 0 ->
  hs_body client st = Raise ValueError.
Proof.
  intros Hc Hs Hf. unfold hs_body, recv1. rewrite Hc. simpl String.eqb.
  apply Z.eqb_neq in Hf. rewrite Hf. simpl negb. cbv iota.
  unfold split. rewrite split_go_no_sep by assumption. reflexivity.
Qed.

(** A line that starts with a colon: the guard is false, nothing is
    stored and [msg] is kept for the next line. *)
Lemma hs_body_colon_first_kept (client : socket) (st : hs_state) :
  client (pos st) = Some LF ->
  find ":" (msg st) = 0 ->
  hs_body client st =
  Ok {| val := val st; msg := msg st; count := count st - 1; pos := (pos st + 1)%nat |}.
Proof.
  intros Hc Hf. unfold hs_body, recv1. rewrite Hc. simpl String.eqb.
  rewrite Hf. reflexivity.
Qed.

Lemma length_snoc (s : string) (a : ascii) :
  String.length (s +:+ String a EmptyString) = S (String.length s).
Proof. induction s as [|b s IH]; simpl; [reflexivity | now rewrite IH]. Qed.

(** While only carriage returns and fewer than 100 other bytes, none of
    them a line feed, arrive, a pass of the loop ends where the next one
    starts: [count] is 3 and [msg] holds the bytes that are not carriage
    returns. *)
Lemma hs_loop_keeps_reading (client : socket) :
  (forall i, exists a, client i = Some a /\ a <> LF) ->
  (forall n, (non_cr client n < 100)%nat) ->
  forall fuel st,
    count st = 3 ->
    String.length (msg st) = non_cr client (pos st) ->
    exists st', hs_loop fuel client st = Running st' /\
                pos st' = (pos st + fuel)%nat /\
                count st' = 3 /\
                String.length (msg st') = non_cr client (pos st').
Proof.
  intros Hbytes Hcap fuel. induction fuel as [|fuel IH]; intros st Hc Hm.
  - exists st. simpl.
    assert (hs_cond st = true) as ->.
    { unfold hs_cond. rewrite Hc, Hm. specialize (Hcap (pos st)).
      apply andb_true_intro. split; [apply Z.ltb_lt; lia | reflexivity]. }
    rewrite Nat.add_0_r. auto.
  - simpl.
    assert (hs_cond st = true) as ->.
    { unfold hs_cond. rewrite Hc, Hm. specialize (Hcap (pos st)).
      apply andb_true_intro. split; [apply Z.ltb_lt; lia | reflexivity]. }
    destruct (Hbytes (pos st)) as (a & Ha & Hlf).
    unfold hs_body, recv1. rewrite Ha. simpl String.length.
    destruct (Ascii.eqb_spec a CR) as [->|Hcr].
    + simpl.
      edestruct (IH {| val := val st; msg := msg st; count := count st;
                       pos := (pos st + 1)%nat |}) as (st' & Hrun & Hp & Hc' & Hm').
      * assumption.
      * simpl. replace (pos st + 1)%nat with (S (pos st)) by lia.
        simpl. rewrite Ha. simpl. lia.
      * exists st'. simpl in Hp. repeat split; try assumption. lia.
    + assert (String.eqb (String a EmptyString) (String CR EmptyString) = false) as ->.
      { apply String.eqb_neq. congruence. }
      assert (String.eqb (String a EmptyString) (String LF EmptyString) = false) as ->.
      { apply String.eqb_neq. congruence. }
      edestruct (IH {| val := val st; msg := msg st +:+ String a EmptyString;
                       count := count st; pos := (pos st + 1)%nat |})
        as (st' & Hrun & Hp & Hc' & Hm').
      * assumption.
      * simpl. rewrite length_snoc. replace (pos st + 1)%nat with (S (pos st)) by lia.
        simpl. rewrite Ha. apply Ascii.eqb_neq in Hcr. rewrite Hcr. lia.
      * exists st'. simpl in Hp. repeat split; try assumption. lia.
Qed.

Lemma non_cr_all_cr (n : nat) : non_cr (fun _ => Some CR) n = 0%nat.
Proof. induction n as [|n IH]; simpl; [reflexivity | rewrite IH; reflexivity]. Qed.

(** C9: carriage returns count neither against the 100-byte cap nor
    against the line budget. On a stream of carriage returns, alone or
    mixed with fewer than 100 other bytes that are not line feeds, the
    read loop is still running after any number of passes, with one byte
    read per pass, [count] at 3 and only the other bytes in [msg]. *)
Theorem handshake_carriage_returns_never_end (client : socket) :
  (forall i, exists a, client i = Some a /\ a <> LF) ->
  (forall n, (non_cr client n < 100)%nat) ->
  forall fuel,
    exists st, hs_loop fuel client hs_init = Running st /\
               pos st = fuel /\
               count st = 3 /\
               String.length (msg st) = non_cr client fuel.
Proof.
  intros Hbytes Hcap fuel.
  destruct (hs_loop_keeps_reading client Hbytes Hcap fuel hs_init)
    as (st & Hrun & Hp & Hc & Hm); [reflexivity | reflexivity |].
  exists st. simpl in Hp. subst fuel. auto.
Qed.

Lemma handshake_carriage_returns_witness :
  exists st, hs_loop 1000 (fun _ => Some CR) hs_init = Running st /\
             pos st = 1000%nat /\
             count st = 3 /\
             String.length (msg st) = non_cr (fun _ => Some CR) 1000.
Proof.
  apply (handshake_carriage_returns_never_end (fun _ => Some CR)).
  - intros i. exists CR. split; [reflexivity | discriminate].
  - intros n. rewrite non_cr_all_cr. lia.
Defined.

(** ** The dispatcher *)

Lemma hs_body_device_id client st st' :
  device_id_field (val st) -> hs_body client st = Ok st' -> device_id_field (val st').
Proof.
  intros Hinv. unfold hs_body.
  repeat case_match; intros [= <-]; simpl; try assumption.
  unfold device_id_field.
  match goal with |- context [<[?key := _]> _] => destruct (decide (key = "DEVICE-ID")) as [->|Hne] end.
  - right. eexists. apply lookup_insert_eq.
  - rewrite lookup_insert_ne by assumption. exact Hinv.
Qed.

Lemma hs_loop_device_id fuel client st st' :
  device_id_field (val st) -> hs_loop fuel client st = Done st' -> device_id_field (val st').
Proof.
  revert st. induction fuel as [|fuel IH]; intros st Hinv; simpl.
  - destruct (hs_cond st); [discriminate | now intros [= <-]].
  - destruct (hs_cond st); [| now intros [= <-]].
    destruct (hs_body client st) as [st1|e] eqn:Hb; [|discriminate].
    apply IH. eapply hs_body_device_id; eassumption.
Qed.

(** C6: when the read loop has produced a record, a non-empty
    [DEVICE-ID] makes the call spawn one worker, with the arguments
    [--proxyid <id> --sockfd <fd> --disable-keepalive]; a [DEVICE-ID]
    that is [None] or empty makes it return with nothing spawned and
    nothing raised. The record has one of the two. *)
Theorem dispatch_on_device_id (fuel : nat) (client : socket) (fd : Z) (st : hs_state) :
  hs_loop fuel client hs_init = Done st ->
  (forall id, val st !! "DEVICE-ID" = Some (PStr id) -> id <> "" ->
     _launch_junos_proxy fuel client fd =
     Done ([LogDebug "Launching salt-proxy for {0}" [PStr id];
            Popen ["/usr/bin/salt-proxy"; "--proxyid"; id; "--sockfd"; str_of_int fd;
                   "--disable-keepalive"]], pos st)) /\
  (val st !! "DEVICE-ID" = Some PNone \/ val st !! "DEVICE-ID" = Some (PStr "") ->
     _launch_junos_proxy fuel client fd = Done ([], pos st)) /\
  device_id_field (val st).
Proof.
  intros Hloop. unfold _launch_junos_proxy, spawn_worker, getitem. rewrite Hloop.
  split; [|split].
  - intros id Hid Hne. rewrite Hid. simpl.
    destruct id; [congruence | reflexivity].
  - intros [H|H]; rewrite H; reflexivity.
  - eapply hs_loop_device_id; [|exact Hloop]. left. reflexivity.
Qed.

Lemma dispatch_on_device_id_witness :
  _launch_junos_proxy 38 (of_bytes three_lines) 7 =
  Done ([LogDebug "Launching salt-proxy for {0}" [PStr "vmx1"];
         Popen ["/usr/bin/salt-proxy"; "--proxyid"; "vmx1"; "--sockfd"; "7";
                "--disable-keepalive"]], 38%nat).
Proof.
  refine (proj1 (dispatch_on_device_id 38 (of_bytes three_lines) 7
            {| val := <["MSG-ID" := PStr "42"]>
                        (<["MSG-VER" := PStr "1"]> (<["DEVICE-ID" := PStr "vmx1"]> ∅));
               msg := ""; count := 0; pos := 38 |} _) "vmx1" _ _).
  - vm_compute. reflexivity.
  - vm_compute. reflexivity.
  - discriminate.
Defined.

(** ** The registry operations *)

Section Registry.
Context `{sdk : SDK}.

(** Without the key [conn] in [thisproxy], each of [conn],
    [get_serialized_facts] and [ping] raises [KeyError 'conn']. *)
Lemma no_session_missing_key (thisproxy : gmap string regval) :
  thisproxy !! "conn" = None ->
  conn thisproxy = Raise (KeyError "conn") /\
  get_serialized_facts thisproxy = Raise (KeyError "conn") /\
  ping thisproxy = Raise (KeyError "conn").
Proof.
  intros H.
  unfold get_serialized_facts, ping, conn_device, conn, getitem. rewrite H.
  repeat split.
Qed.

(** C4: whatever the stored handle and whatever [close] does, when the
    configuration has an [id] the call returns normally. *)
Theorem shutdown_swallows_close_errors
    (opts : gmap string pyval) (thisproxy : gmap string regval) (id : pyval) :
  opts !! "id" = Some id ->
  exists reg evs, shutdown opts thisproxy = (Ok tt, reg, evs).
Proof.
  intros H. unfold shutdown, getitem. rewrite H.
  destruct (conn_device thisproxy) as [d|e] eqn:Hc.
  - destruct (on_conn thisproxy Device_close) as [reg r].
    exists reg. eexists. destruct r as [[]|e]; reflexivity.
  - exists thisproxy. eexists. reflexivity.
Qed.

(** C10: [opts['id']] is read for the log message before the [try]
    statement. Without an [id] the call raises [KeyError 'id'], with
    nothing logged and [close] not called. *)
Theorem shutdown_without_id (opts : gmap string pyval) (thisproxy : gmap string regval) :
  opts !! "id" = None ->
  shutdown opts thisproxy = (Raise (KeyError "id"), thisproxy, []).
Proof.
  intros H. unfold shutdown, getitem. rewrite H. reflexivity.
Qed.

End Registry.

(** A session whose [close] raises. *)
Lemma shutdown_swallows_close_errors_witness :
  exists reg evs,
    shutdown (sdk := mock_sdk (Raise (SdkError "RpcTimeoutError")))
      {["id" := PStr "vmx1"]} (mock_session _) = (Ok tt, reg, evs).
Proof.
  apply (shutdown_swallows_close_errors (sdk := mock_sdk (Raise (SdkError "RpcTimeoutError")))
           {["id" := PStr "vmx1"]} (mock_session _) (PStr "vmx1")).
  reflexivity.
Defined.

(** [close] is called once, after the log message, and its error is dropped. *)
Example shutdown_close_raises :
  shutdown (sdk := mock_sdk (Raise (SdkError "RpcTimeoutError")))
    {["id" := PStr "vmx1"]} (mock_session _) =
  (Ok tt, (mock_session _),
   [LogDebug "Proxy module {0} shutting down!!" [PStr "vmx1"]; DeviceClose]).
Proof. vm_compute. reflexivity. Qed.

(** No handle stored: [thisproxy['conn']] raises inside the [try]. *)
Example shutdown_no_session :
  shutdown (sdk := mock_sdk (Ok tt)) {["id" := PStr "vmx1"]} ∅ =
  (Ok tt, ∅, [LogDebug "Proxy module {0} shutting down!!" [PStr "vmx1"]]).
Proof. vm_compute. reflexivity. Qed.

(** A session that would close cleanly, and a configuration without [id]. *)
Lemma shutdown_without_id_witness :
  shutdown (sdk := mock_sdk (Ok tt)) ∅ (mock_session _) =
  (Raise (KeyError "id"), (mock_session _), []).
Proof.
  apply (shutdown_without_id (sdk := mock_sdk (Ok tt))). reflexivity.
Defined.

(** ** The connection arguments *)

Lemma copy_lookup (proxy : gmap string pyval) (l : list string) (k : string) :
  forall args : gmap string pyval,
    foldl (fun args arg =>
             match proxy !! arg with
             | Some v => <[arg := v]> args
             | None => args
             end) args l !! k =
    if bool_decide (k ∈ l)
    then match proxy !! k with Some v => Some v | None => args !! k end
    else args !! k.
Proof.
  induction l as [|a l IH]; intros args; simpl.
  - reflexivity.
  - rewrite IH. destruct (decide (a = k)) as [->|Hne].
    + rewrite (bool_decide_eq_true_2 (k ∈ k :: l)) by (apply elem_of_cons; auto).
      destruct (proxy !! k) as [v|] eqn:Hk.
      * rewrite lookup_insert_eq. destruct (bool_decide (k ∈ l)); reflexivity.
      * destruct (bool_decide (k ∈ l)); reflexivity.
    + assert ((match proxy !! a with
               | Some v => <[a := v]> args
               | None => args
               end) !! k = args !! k) as ->.
      { destruct (proxy !! a); [now rewrite lookup_insert_ne | reflexivity]. }
      destruct (decide (k ∈ l)) as [Hin|Hnin].
      * rewrite (bool_decide_eq_true_2 (k ∈ l)) by assumption.
        rewrite (bool_decide_eq_true_2 (k ∈ a :: l)) by (apply elem_of_cons; auto).
        reflexivity.
      * rewrite (bool_decide_eq_false_2 (k ∈ l)) by assumption.
        rewrite (bool_decide_eq_false_2 (k ∈ a :: l)); [reflexivity|].
        rewrite elem_of_cons. intros [?|?]; [congruence | contradiction].
Qed.

(** A recognised optional key is copied when [proxy] has it. *)
Lemma copy_optional_lookup (proxy args : gmap string pyval) (k : string) :
  copy_optional proxy args !! k =
  if bool_decide (k ∈ optional_args)
  then match proxy !! k with Some v => Some v | None => args !! k end
  else args !! k.
Proof. apply copy_lookup. Qed.

(** [host] and [sock_fd] are not among the optional keys; the names of
    the user and of the password are. *)
Lemma optional_args_keys :
  bool_decide ("host" ∈ optional_args) = false /\
  bool_decide ("sock_fd" ∈ optional_args) = false /\
  bool_decide ("user" ∈ optional_args) = true /\
  bool_decide ("username" ∈ optional_args) = true /\
  bool_decide ("password" ∈ optional_args) = true /\
  bool_decide ("passwd" ∈ optional_args) = true.
Proof. vm_compute. repeat split. Qed.

Lemma init_args_proxy (opts proxy : gmap string pyval) :
  opts !! "proxy" = Some (PDict proxy) ->
  init_args opts =
  Ok (<["proxy" := PDict (alias_username proxy)]> (<["multiprocessing" := PBool false]> opts),
      copy_optional (alias_username proxy)
        (<["sock_fd" := default PNone (opts !! "sock_fd")]>
           {["host" := default PNone (proxy !! "host")]})).
Proof.
  intros Hp. unfold init_args, proxy_of, getitem.
  rewrite lookup_insert_ne by done. rewrite Hp. simpl.
  rewrite lookup_insert_ne by done.
  destruct (proxy !! "host"), (opts !! "sock_fd"); reflexivity.
Qed.

Section Init.
Context `{sdk : SDK}.

(** [init] reaches its mode decision with the arguments of [init_args]. *)
Lemma init_args_built (opts o args : gmap string pyval) (thisproxy : gmap string regval) :
  init_args opts = Ok (o, args) ->
  args_built (init opts thisproxy) = Some args /\ opts_after (init opts thisproxy) = o.
Proof.
  intros H. unfold init. rewrite H.
  repeat case_match; simpl; auto.
Qed.

(** C2, as the code has it: with exactly one of [proxy.host] and the
    inherited socket [sock_fd] present, the connection arguments carry
    the present one with its configured value, and carry the key of the
    absent one with the value [None]. *)
Theorem init_host_xor_sock_fd
    (opts proxy : gmap string pyval) (thisproxy : gmap string regval) :
  opts !! "proxy" = Some (PDict proxy) ->
  (forall h, proxy !! "host" = Some h -> opts !! "sock_fd" = None ->
     exists args, args_built (init opts thisproxy) = Some args /\
                  args !! "host" = Some h /\ args !! "sock_fd" = Some PNone) /\
  (forall fd, proxy !! "host" = None -> opts !! "sock_fd" = Some fd ->
     exists args, args_built (init opts thisproxy) = Some args /\
                  args !! "sock_fd" = Some fd /\ args !! "host" = Some PNone).
Proof.
  intros Hp.
  destruct (init_args_built _ _ _ thisproxy (init_args_proxy opts proxy Hp)) as [Hb _].
  split; intros x Hh Hs; eexists; (split; [exact Hb|]);
    destruct optional_args_keys as (Kh & Ks & _);
    rewrite !copy_optional_lookup, Kh, Ks, Hh, Hs; simpl; split; simplify_map_eq; reflexivity.
Qed.

(** C3, as the code has it: [passwd] is not renamed. It is copied to the
    connection arguments under its own name, and the arguments have a
    [password] exactly when [proxy] has one. *)
Theorem init_passwd_passes_through
    (opts proxy : gmap string pyval) (thisproxy : gmap string regval) (p : pyval) :
  opts !! "proxy" = Some (PDict proxy) ->
  proxy !! "passwd" = Some p ->
  exists args, args_built (init opts thisproxy) = Some args /\
               args !! "passwd" = Some p /\
               args !! "password" = proxy !! "password".
Proof.
  intros Hp Hpw.
  destruct (init_args_built _ _ _ thisproxy (init_args_proxy opts proxy Hp)) as [Hb _].
  eexists. split; [exact Hb|].
  destruct optional_args_keys as (_ & _ & _ & _ & Kpw & Kp).
  rewrite !copy_optional_lookup, Kpw, Kp.
  assert (forall k, k <> "user" -> k <> "username" ->
                    alias_username proxy !! k = proxy !! k) as Hk.
  { intros k H1 H2. unfold alias_username. destruct (proxy !! "username"); [|reflexivity].
    rewrite lookup_insert_ne, lookup_delete_ne by congruence. reflexivity. }
  rewrite !Hk by done. rewrite Hpw. split; [reflexivity|].
  destruct (proxy !! "password"); reflexivity.
Qed.

(** C8: a [username] in [proxy] is moved to [user]. The connection
    arguments have [user] with that value and no [username], and so has
    [opts['proxy']] after the call. *)
Theorem init_username_renamed
    (opts proxy : gmap string pyval) (thisproxy : gmap string regval) (x : pyval) :
  opts !! "proxy" = Some (PDict proxy) ->
  proxy !! "username" = Some x ->
  exists args proxy',
    args_built (init opts thisproxy) = Some args /\
    args !! "user" = Some x /\ args !! "username" = None /\
    opts_after (init opts thisproxy) !! "proxy" = Some (PDict proxy') /\
    proxy' !! "user" = Some x /\ proxy' !! "username" = None.
Proof.
  intros Hp Hu.
  destruct (init_args_built _ _ _ thisproxy (init_args_proxy opts proxy Hp)) as [Hb Ho].
  assert (alias_username proxy !! "user" = Some x) as Huser.
  { unfold alias_username. rewrite Hu. apply lookup_insert_eq. }
  assert (alias_username proxy !! "username" = None) as Hname.
  { unfold alias_username. rewrite Hu.
    rewrite lookup_insert_ne by done. apply lookup_delete_eq. }
  eexists. exists (alias_username proxy). split; [exact Hb|].
  destruct optional_args_keys as (_ & _ & Ku & Kn & _).
  rewrite !copy_optional_lookup, Ku, Kn.
  rewrite Huser, Hname, Ho, lookup_insert_eq.
  repeat split; try assumption.
Qed.

End Init.

Lemma init_host_xor_sock_fd_witness :
  exists args, args_built (init (sdk := mock_sdk (Ok tt)) cfg_host ∅) = Some args /\
               args !! "host" = Some (PStr "r1.example.net") /\
               args !! "sock_fd" = Some PNone.
Proof.
  apply (proj1 (init_host_xor_sock_fd (sdk := mock_sdk (Ok tt)) cfg_host
                  {["host" := PStr "r1.example.net"]} ∅ eq_refl)
           (PStr "r1.example.net")); reflexivity.
Defined.

(** C2 as stated fails: with only [proxy.host] configured the arguments
    have the key [sock_fd], and with only the inherited socket they have
    the key [host]. *)
Lemma init_absent_key_is_present :
  (exists args, args_built (init (sdk := mock_sdk (Ok tt)) cfg_host ∅) = Some args /\
                args !! "host" = Some (PStr "r1.example.net") /\
                args !! "sock_fd" <> None) /\
  (exists args, args_built (init (sdk := mock_sdk (Ok tt)) cfg_sock_fd ∅) = Some args /\
                args !! "sock_fd" = Some (PInt 7) /\
                args !! "host" <> None).
Proof.
  split; eexists; (split; [vm_compute; reflexivity|]);
    (split; [vm_compute; reflexivity | vm_compute; discriminate]).
Qed.

Lemma init_passwd_passes_through_witness :
  exists args, args_built (init (sdk := mock_sdk (Ok tt)) cfg_passwd ∅) = Some args /\
               args !! "passwd" = Some (PStr "secret") /\
               args !! "password" =
               (<["passwd" := PStr "secret"]> {["host" := PStr "r1.example.net"]}
                  : gmap string pyval) !! "password".
Proof.
  apply (init_passwd_passes_through (sdk := mock_sdk (Ok tt)) cfg_passwd
           (<["passwd" := PStr "secret"]> {["host" := PStr "r1.example.net"]}) ∅
           (PStr "secret")); reflexivity.
Defined.

(** C3 as stated fails: with [proxy.passwd] configured the arguments
    have no [password], and they have the key [passwd]. *)
Lemma init_passwd_not_aliased :
  exists args, args_built (init (sdk := mock_sdk (Ok tt)) cfg_passwd ∅) = Some args /\
               args !! "password" = None /\
               args !! "passwd" = Some (PStr "secret").
Proof.
  eexists. split; [vm_compute; reflexivity|].
  split; vm_compute; reflexivity.
Qed.

Lemma init_username_renamed_witness :
  exists args proxy',
    args_built (init (sdk := mock_sdk (Ok tt)) cfg_username ∅) = Some args /\
    args !! "user" = Some (PStr "x") /\ args !! "username" = None /\
    opts_after (init (sdk := mock_sdk (Ok tt)) cfg_username ∅) !! "proxy" = Some (PDict proxy') /\
    proxy' !! "user" = Some (PStr "x") /\ proxy' !! "username" = None.
Proof.
  apply (init_username_renamed (sdk := mock_sdk (Ok tt)) cfg_username
           (<["username" := PStr "x"]> {["host" := PStr "r1.example.net"]}) ∅ (PStr "x"));
    reflexivity.
Defined.

(** ** Runs of [init] *)

(** Direct-connect mode: the device is made from the connection
    arguments, opened and bound, and stored in [thisproxy]. *)
Example init_direct_connect :
  let r := init (sdk := mock_sdk (Ok tt)) cfg_username ∅ in
  let args : gmap string pyval :=
    <["user" := PStr "x"]>
      (<["sock_fd" := PNone]> {["host" := PStr "r1.example.net"]}) in
  exit r = Returned /\
  args_built r = Some args /\
  init_trace r = [LogDebug "Opening connection to junos" []; DeviceNew args; DeviceOpen;
                  DeviceBind "cu"; DeviceBind "sw"] /\
  thisproxy_after r !! "conn" = Some (RDev (sdk := mock_sdk (Ok tt)) args) /\
  thisproxy_after r !! "initialized" = Some (RVal (PBool true)).
Proof. cbv zeta. repeat apply conj; vm_compute; reflexivity. Qed.

(** Listener mode: neither [host] nor [sock_fd]. Nothing is stored. *)
Example init_listener :
  let r := init (sdk := mock_sdk (Ok tt)) cfg_listen ∅ in
  exit r = Listening /\
  init_trace r = [LogDebug "Opening connection to junos" [];
                  LogDebug "Listen for outbound-ssh Junos devices on port" [];
                  Listen (PInt 2200) 5] /\
  thisproxy_after r = ∅.
Proof. cbv zeta. repeat apply conj; vm_compute; reflexivity. Qed.

(** An empty [DEVICE-ID]: the record is produced and no worker is spawned. *)
Example dispatch_empty_device_id :
  _launch_junos_proxy 34 (of_bytes ("DEVICE-ID: " +:+ LFs +:+ "MSG-ID: 42" +:+ LFs +:+
                                    "MSG-VER: 1" +:+ LFs)) 7 = Done ([], 34%nat).
Proof. vm_compute. reflexivity. Qed.

(** ** Stepping the read loop *)

Lemma hs_loop_step (k : nat) (client : socket) (st st' : hs_state) :
  hs_cond st = true -> hs_body client st = Ok st' ->
  hs_loop (S k) client st = hs_loop k client st'.
Proof. intros Hc Hb. simpl. rewrite Hc, Hb. reflexivity. Qed.

Lemma hs_loop_step_raise (k : nat) (client : socket) (st : hs_state) (e : exn) :
  hs_cond st = true -> hs_body client st = Raise e ->
  hs_loop (S k) client st = Raised e.
Proof. intros Hc Hb. simpl. rewrite Hc, Hb. reflexivity. Qed.

(** A loop that is still running goes on from where it is. *)
Lemma hs_loop_resume (n k : nat) (client : socket) (st st' : hs_state) :
  hs_loop n client st = Running st' ->
  hs_loop (n + k) client st = hs_loop k client st'.
Proof.
  revert st. induction n as [|n IH]; intros st; simpl.
  - destruct (hs_cond st) eqn:E; [|discriminate]. now intros [= ->].
  - destruct (hs_cond st) eqn:E; [|discriminate].
    destruct (hs_body client st); [apply IH | discriminate].
Qed.

Lemma hs_state_eta (st : hs_state) :
  {| val := val st; msg := msg st; count := count st; pos := pos st |} = st.
Proof. destruct st; reflexivity. Qed.

Lemma hs_cond_true (st : hs_state) :
  (String.length (msg st) < 100)%nat -> 0 < count st -> hs_cond st = true.
Proof.
  intros Hl Hc. unfold hs_cond. apply andb_true_intro.
  split; [apply Z.ltb_lt; lia | apply Z.ltb_lt; lia].
Qed.

Lemma length_append (s t : string) :
  String.length (s +:+ t) = (String.length s + String.length t)%nat.
Proof.
  induction s as [|a s IH]; [reflexivity|].
  rewrite append_cons. simpl. now rewrite IH.
Qed.

(** A byte that is neither a carriage return nor a line feed is appended
    to [msg]. *)
Lemma hs_body_byte (client : socket) (st : hs_state) (a : ascii) :
  client (pos st) = Some a -> a <> CR -> a <> LF ->
  hs_body client st =
  Ok {| val := val st; msg := msg st +:+ String a EmptyString; count := count st;
        pos := (pos st + 1)%nat |}.
Proof.
  intros Ha Hcr Hlf. unfold hs_body, recv1. rewrite Ha.
  assert (String.eqb (String a EmptyString) (String CR EmptyString) = false) as ->.
  { apply String.eqb_neq. congruence. }
  assert (String.eqb (String a EmptyString) (String LF EmptyString) = false) as ->.
  { apply String.eqb_neq. congruence. }
  reflexivity.
Qed.

(** A carriage return only moves the read position. *)
Lemma hs_body_cr (client : socket) (st : hs_state) :
  client (pos st) = Some CR ->
  hs_body client st =
  Ok {| val := val st; msg := msg st; count := count st; pos := (pos st + 1)%nat |}.
Proof. intros Ha. unfold hs_body, recv1. rewrite Ha. reflexivity. Qed.

(** After the peer has closed, a pass changes nothing. *)
Lemma hs_body_closed (client : socket) (st : hs_state) :
  client (pos st) = None -> hs_body client st = Ok st.
Proof.
  intros Ha. unfold hs_body, recv1. rewrite Ha. simpl.
  rewrite append_empty, Nat.add_0_r. now rewrite hs_state_eta.
Qed.

Lemma plain_cons (a : ascii) (s : string) :
  plain (String a s) = true -> a <> CR /\ a <> LF /\ plain s = true.
Proof.
  simpl. intros H. apply andb_prop in H as [H Hs]. apply andb_prop in H as [H1 H2].
  apply negb_true_iff in H1, H2. apply Ascii.eqb_neq in H1, H2. auto.
Qed.

(** The loop reads a run of bytes without line ends into [msg], one byte
    per pass, as long as the cap allows. *)
Lemma hs_loop_reads (s : string) (client : socket) :
  forall (st : hs_state) (k : nat),
    plain s = true ->
    sends client (pos st) s ->
    (String.length (msg st) + String.length s <= 100)%nat ->
    0 < count st ->
    hs_loop (String.length s + k) client st =
    hs_loop k client {| val := val st; msg := msg st +:+ s; count := count st;
                        pos := (pos st + String.length s)%nat |}.
Proof.
  induction s as [|a s IH]; intros st k Hp Hs Hl Hc.
  - simpl. rewrite append_empty, Nat.add_0_r. now rewrite hs_state_eta.
  - apply plain_cons in Hp as (Hcr & Hlf & Hp). destruct Hs as [Ha Hs].
    simpl String.length in *. simpl Nat.add.
    rewrite (hs_loop_step _ _ _ _ (hs_cond_true st ltac:(lia) Hc)
               (hs_body_byte client st a Ha Hcr Hlf)).
    rewrite IH; simpl; try assumption.
    + rewrite append_snoc. do 2 f_equal. lia.
    + now replace (pos st + 1)%nat with (S (pos st)) by lia.
    + rewrite length_snoc. lia.
Qed.

(** ** Header lines, the cap and the end of the stream *)

Lemma sends_app (client : socket) (s t : string) :
  forall p, sends client p (s +:+ t) <->
            sends client p s /\ sends client (p + String.length s) t.
Proof.
  induction s as [|a s IH]; intros p.
  - simpl. rewrite Nat.add_0_r. change ("" +:+ t) with t. tauto.
  - rewrite append_cons. simpl. rewrite IH.
    replace (S p + String.length s)%nat with (p + S (String.length s))%nat by lia.
    tauto.
Qed.

(** [find] returns 0 exactly on a string that starts with the colon. *)
Lemma find_colon_zero (s : string) :
  find ":" s = 0 <-> String.prefix ":" s = true.
Proof.
  unfold find. destruct s as [|a s]; [simpl; split; discriminate|].
  cbn [String.index]. destruct (String.prefix ":" (String a s)) eqn:E.
  - split; reflexivity.
  - destruct (String.index 0 ":" s); split; try discriminate; lia.
Qed.

Lemma prefix_cons (a b : ascii) (s t : string) :
  String.prefix (String a s) (String b t) =
  if Ascii.ascii_dec a b then String.prefix s t else false.
Proof. reflexivity. Qed.

Lemma prefix_nil (s : string) : String.prefix EmptyString s = true.
Proof. destruct s; reflexivity. Qed.

Lemma prefix_sep (a : ascii) (s : string) :
  String.prefix ": " (String a s) =
  match s with
  | EmptyString => false
  | String c _ => if Ascii.ascii_dec ":" a then if Ascii.ascii_dec " " c then true else false
                  else false
  end.
Proof.
  rewrite prefix_cons. destruct s as [|c s].
  - destruct (Ascii.ascii_dec ":" a); reflexivity.
  - rewrite prefix_cons, prefix_nil. reflexivity.
Qed.

(** [split] cuts at the first separator: the key is what precedes it. *)
Lemma split_go_sep (key rest cur : string) :
  contains ": " key = false ->
  split_go ": " (key +:+ ": " +:+ rest) O cur = (cur +:+ key) :: split_go ": " rest O "".
Proof.
  revert cur. induction key as [|a key IH]; intros cur H.
  - change ("" +:+ ": " +:+ rest) with (String ":" (String " " rest)).
    rewrite append_empty. cbn [split_go]. rewrite prefix_sep.
    destruct (Ascii.ascii_dec ":" ":") as [_|?]; [|congruence].
    destruct (Ascii.ascii_dec " " " ") as [_|?]; [|congruence].
    simpl. destruct rest; reflexivity.
  - cbn [contains] in H. apply orb_false_elim in H as [Hp Hc].
    rewrite append_cons. cbn [split_go].
    assert (String.prefix ": " (String a (key +:+ ": " +:+ rest)) = false) as ->.
    { rewrite prefix_sep in Hp |- *. destruct key as [|c key].
      - change ("" +:+ ": " +:+ rest) with (String ":" (String " " rest)).
        destruct (Ascii.ascii_dec ":" a); [|reflexivity].
        destruct (Ascii.ascii_dec " " ":"); [discriminate | reflexivity].
      - rewrite append_cons. exact Hp. }
    rewrite IH by assumption. now rewrite append_snoc.
Qed.

Lemma split_header (key value : string) :
  contains ": " key = false -> contains ": " value = false ->
  split ": " (header key value) = [key; value].
Proof.
  intros Hk Hv. unfold split, header.
  rewrite split_go_sep by assumption. rewrite split_go_no_sep by assumption.
  reflexivity.
Qed.

Lemma well_formed_parts (key value : string) :
  well_formed key value = true ->
  plain key = true /\ plain value = true /\
  contains ": " key = false /\ contains ": " value = false /\
  String.prefix ":" (header key value) = false /\
  (String.length (header key value) < 100)%nat.
Proof.
  unfold well_formed. intros H.
  repeat (apply andb_prop in H as [H ?]).
  repeat match goal with
         | H : negb _ = true |- _ => apply negb_true_iff in H
         | H : (_ <? _)%nat = true |- _ => apply Nat.ltb_lt in H
         end.
  auto 10.
Qed.

Lemma plain_append (s t : string) :
  plain s = true -> plain t = true -> plain (s +:+ t) = true.
Proof.
  induction s as [|a s IH]; intros Hs Ht; [exact Ht|].
  rewrite append_cons. cbn [plain] in *.
  apply andb_prop in Hs as [Ha Hs]. rewrite Ha, IH by assumption. reflexivity.
Qed.

Lemma plain_header (key value : string) :
  plain key = true -> plain value = true -> plain (header key value) = true.
Proof.
  intros Hk Hv. unfold header.
  apply plain_append; [assumption|]. apply (plain_append ": "); [reflexivity | assumption].
Qed.

(** At the line feed that ends a well-formed header, the value is stored
    under the key, the buffer is emptied and a line is counted. *)
Lemma hs_body_header (client : socket) (st : hs_state) (key value : string) :
  client (pos st) = Some LF ->
  msg st = header key value ->
  contains ": " key = false -> contains ": " value = false ->
  String.prefix ":" (header key value) = false ->
  hs_body client st =
  Ok {| val := <[key := PStr value]> (val st); msg := ""; count := count st - 1;
        pos := (pos st + 1)%nat |}.
Proof.
  intros Hc Hm Hk Hv Hp. unfold hs_body, recv1. rewrite Hc, Hm.
  change (String.eqb (String LF "") (String CR "")) with false.
  change (String.eqb (String LF "") (String LF "")) with true. cbv iota.
  assert ((find ":" (header key value) =? 0) = false) as ->.
  { apply Z.eqb_neq. rewrite find_colon_zero, Hp. discriminate. }
  cbn [negb]. cbv iota. rewrite split_header by assumption. reflexivity.
Qed.

(** The end of a line: the carriage return, if any, is passed over and
    the line feed is handled by [hs_body]. *)
Lemma hs_loop_eol (crlf : bool) (client : socket) (st : hs_state) (k : nat) :
  hs_cond st = true ->
  sends client (pos st) (eol crlf) ->
  hs_loop (String.length (eol crlf) + k) client st =
  match hs_body client {| val := val st; msg := msg st; count := count st;
                          pos := (pos st + (String.length (eol crlf) - 1))%nat |} with
  | Ok st' => hs_loop k client st'
  | Raise e => Raised e
  end.
Proof.
  intros Hc Hs. destruct crlf; cbn [eol LFs String.length Nat.add Nat.sub] in *.
  - destruct Hs as (Hcr & Hlf & _).
    rewrite (hs_loop_step _ _ _ _ Hc (hs_body_cr client st Hcr)).
    cbn [hs_loop]. unfold hs_cond in *. cbn [msg count]. rewrite Hc. reflexivity.
  - cbn [hs_loop]. rewrite Hc. rewrite Nat.add_0_r, hs_state_eta. reflexivity.
Qed.

(** A well-formed header line is read in one pass per byte and leaves
    its value in the record. *)
Lemma hs_loop_line (crlf : bool) (key value : string) (client : socket)
    (st : hs_state) (k : nat) :
  well_formed key value = true ->
  msg st = "" -> 0 < count st ->
  sends client (pos st) (wire_line crlf key value) ->
  hs_loop (String.length (wire_line crlf key value) + k) client st =
  hs_loop k client
    {| val := <[key := PStr value]> (val st); msg := ""; count := count st - 1;
       pos := (pos st + String.length (wire_line crlf key value))%nat |}.
Proof.
  intros Hwf Hm Hc Hs. apply well_formed_parts in Hwf as (Hpk & Hpv & Hk & Hv & Hp & Hl).
  unfold wire_line in *. apply sends_app in Hs as [Hs1 Hs2].
  rewrite length_append, <- Nat.add_assoc.
  rewrite hs_loop_reads; [| now apply plain_header | assumption | rewrite Hm; simpl; lia
                          | assumption].
  rewrite Hm. change ("" +:+ header key value) with (header key value).
  rewrite hs_loop_eol; cbn [pos msg val count].
  - erewrite hs_body_header; cbn [pos msg val count]; try reflexivity; try assumption.
    + do 2 f_equal. destruct crlf; simpl; lia.
    + destruct crlf; cbn [eol LFs String.length Nat.sub Nat.add] in *.
      * destruct Hs2 as (_ & Hlf & _).
        now replace (pos st + String.length (header key value) + 1)%nat
          with (S (pos st + String.length (header key value))) by lia.
      * destruct Hs2 as (Hlf & _). now rewrite Nat.add_0_r.
  - apply hs_cond_true; cbn [msg count]; assumption.
  - exact Hs2.
Qed.

(** Three well-formed header lines, read from an empty buffer with a
    budget of three lines, end the loop. *)
Lemma hs_loop_three_lines (client : socket) (c1 c2 c3 : bool)
    (k1 v1 k2 v2 k3 v3 : string) (v0 : gmap string pyval) (k : nat) :
  well_formed k1 v1 = true -> well_formed k2 v2 = true -> well_formed k3 v3 = true ->
  sends client 0 (wire_line c1 k1 v1 +:+ wire_line c2 k2 v2 +:+ wire_line c3 k3 v3) ->
  hs_loop (String.length (wire_line c1 k1 v1 +:+ wire_line c2 k2 v2 +:+ wire_line c3 k3 v3) + k)
    client {| val := v0; msg := ""; count := 3; pos := 0 |} =
  Done {| val := <[k3 := PStr v3]> (<[k2 := PStr v2]> (<[k1 := PStr v1]> v0));
          msg := ""; count := 0;
          pos := String.length
                   (wire_line c1 k1 v1 +:+ wire_line c2 k2 v2 +:+ wire_line c3 k3 v3) |}.
Proof.
  intros W1 W2 W3 Hs.
  apply sends_app in Hs as [S1 Hs]. apply sends_app in Hs as [S2 S3].
  rewrite !length_append, <- !Nat.add_assoc.
  rewrite hs_loop_line; cbn [val msg count pos]; try assumption; try reflexivity.
  rewrite hs_loop_line; cbn [val msg count pos]; try assumption; try reflexivity.
  rewrite hs_loop_line; cbn [val msg count pos]; try assumption; try reflexivity.
  rewrite hs_loop_exit by reflexivity. do 2 f_equal. lia.
Qed.

(** X1: three well-formed header lines, each ended by a line feed or by a
    carriage return and a line feed, are read in one pass per byte. The
    record is the initial one with each value stored under its key, a
    later line overwriting an earlier one, and any key is accepted. *)
Theorem handshake_header_lines (client : socket) (c1 c2 c3 : bool)
    (k1 v1 k2 v2 k3 v3 : string) (k : nat) :
  well_formed k1 v1 = true -> well_formed k2 v2 = true -> well_formed k3 v3 = true ->
  sends client 0 (wire_line c1 k1 v1 +:+ wire_line c2 k2 v2 +:+ wire_line c3 k3 v3) ->
  hs_loop (String.length (wire_line c1 k1 v1 +:+ wire_line c2 k2 v2 +:+ wire_line c3 k3 v3) + k)
    client hs_init =
  Done {| val := <[k3 := PStr v3]> (<[k2 := PStr v2]> (<[k1 := PStr v1]> (val hs_init)));
          msg := ""; count := 0;
          pos := String.length
                   (wire_line c1 k1 v1 +:+ wire_line c2 k2 v2 +:+ wire_line c3 k3 v3) |}.
Proof. intros. now apply hs_loop_three_lines. Qed.

Lemma spawn_worker_none (v : gmap string pyval) (fd : Z) :
  v !! "DEVICE-ID" = Some PNone -> spawn_worker v fd = Ok [].
Proof. intros H. unfold spawn_worker, getitem. rewrite H. reflexivity. Qed.

Lemma spawn_worker_id (v : gmap string pyval) (fd : Z) (id : string) :
  v !! "DEVICE-ID" = Some (PStr id) -> id <> "" ->
  spawn_worker v fd =
  Ok [LogDebug "Launching salt-proxy for {0}" [PStr id];
      Popen ["/usr/bin/salt-proxy"; "--proxyid"; id; "--sockfd"; str_of_int fd;
             "--disable-keepalive"]].
Proof.
  intros H Hne. unfold spawn_worker, getitem. rewrite H. simpl.
  destruct id; [congruence | reflexivity].
Qed.

(** X2: the 100-byte cap: 100 bytes without a line end fill the buffer, the
    loop leaves without reading further, the record is empty and no
    worker is spawned. *)
Theorem handshake_cap (client : socket) (s : string) (fd : Z) (k : nat) :
  plain s = true -> String.length s = 100%nat -> sends client 0 s ->
  _launch_junos_proxy (100 + k) client fd = Done ([], 100%nat).
Proof.
  intros Hp Hl Hs. unfold _launch_junos_proxy. rewrite <- Hl at 1.
  rewrite hs_loop_reads; try assumption; cbn [hs_init msg count pos val];
    [| simpl; lia | lia].
  rewrite hs_loop_exit.
  - cbn [val pos]. rewrite spawn_worker_none by reflexivity. now rewrite Hl.
  - unfold hs_cond. cbn [msg]. change ("" +:+ s) with s. rewrite Hl. reflexivity.
Qed.

Lemma hs_loop_running_cond (n : nat) (client : socket) (st st' : hs_state) :
  hs_loop n client st = Running st' -> hs_cond st' = true.
Proof.
  revert st. induction n as [|n IH]; intros st; simpl.
  - destruct (hs_cond st) eqn:E; [|discriminate]. now intros [= <-].
  - destruct (hs_cond st); [|discriminate].
    destruct (hs_body client st); [apply IH | discriminate].
Qed.

Lemma hs_loop_closed (client : socket) (st : hs_state) (k : nat) :
  hs_cond st = true -> client (pos st) = None -> hs_loop k client st = Running st.
Proof.
  intros Hc Hn. induction k as [|k IH]; simpl; rewrite Hc; [reflexivity|].
  rewrite hs_body_closed by assumption. exact IH.
Qed.

(** X3: a peer that closes the connection before the handshake is complete:
    [recv] returns the empty string from then on, and the loop goes
    round for ever with its state unchanged. *)
Theorem handshake_closed_never_ends (client : socket) (n : nat) (st : hs_state) (fd : Z) :
  hs_loop n client hs_init = Running st ->
  client (pos st) = None ->
  forall k, _launch_junos_proxy (n + k) client fd = Running ([], pos st).
Proof.
  intros Hrun Hn k. unfold _launch_junos_proxy.
  rewrite (hs_loop_resume _ _ _ _ _ Hrun).
  rewrite hs_loop_closed; [reflexivity | | assumption].
  eapply hs_loop_running_cond. exact Hrun.
Qed.

Lemma sends_eol_lf (client : socket) (p : nat) (crlf : bool) :
  sends client p (eol crlf) ->
  client (p + (String.length (eol crlf) - 1))%nat = Some LF.
Proof.
  destruct crlf; cbn [eol LFs sends String.length Nat.sub].
  - intros (_ & Hlf & _). now replace (p + 1)%nat with (S p) by lia.
  - intros (Hlf & _). now rewrite Nat.add_0_r.
Qed.

(** X4: a line without the separator that does not start with a colon, the
    empty line among them, makes the call raise [ValueError]. *)
Theorem handshake_unsplit_line_raises (crlf : bool) (line : string) (client : socket)
    (fd : Z) (k : nat) :
  plain line = true -> (String.length line < 100)%nat ->
  contains ": " line = false -> String.prefix ":" line = false ->
  sends client 0 (line +:+ eol crlf) ->
  _launch_junos_proxy (String.length (line +:+ eol crlf) + k) client fd = Raised ValueError.
Proof.
  intros Hp Hl Hc Hpre Hs. unfold _launch_junos_proxy.
  apply sends_app in Hs as [S1 S2].
  rewrite length_append, <- Nat.add_assoc.
  rewrite hs_loop_reads; try assumption; cbn [hs_init msg count pos val];
    [| simpl; lia | lia].
  change ("" +:+ line) with line.
  rewrite hs_loop_eol; cbn [pos msg val count];
    [| apply hs_cond_true; cbn [msg count]; [assumption | lia] | exact S2].
  rewrite hs_body_unsplit_line_raises; cbn [pos msg]; [reflexivity | | assumption |].
  - now apply sends_eol_lf.
  - rewrite find_colon_zero, Hpre. discriminate.
Qed.

Lemma split_go_cons (s : string) :
  forall skip cur, exists x l, split_go ": " s skip cur = x :: l.
Proof.
  induction s as [|a s IH]; intros skip cur; cbn [split_go]; [eauto|].
  destruct skip; [|apply IH].
  destruct (String.prefix ": " (String a s)); [eauto | apply IH].
Qed.

Lemma split_go_two (s : string) :
  forall cur, contains ": " s = true -> exists x y l, split_go ": " s O cur = x :: y :: l.
Proof.
  induction s as [|a s IH]; intros cur H; cbn [contains split_go] in *.
  - discriminate.
  - destruct (String.prefix ": " (String a s)).
    + destruct (split_go_cons s (String.length ": " - 1) "") as (y & l & ->). eauto.
    + apply IH. exact H.
Qed.

(** X5: a header whose value contains the separator again is split into more
    than two pieces, and the call raises [ValueError]. *)
Theorem handshake_second_separator_raises (crlf : bool) (key value : string)
    (client : socket) (fd : Z) (k : nat) :
  plain (header key value) = true -> (String.length (header key value) < 100)%nat ->
  contains ": " key = false -> contains ": " value = true ->
  String.prefix ":" (header key value) = false ->
  sends client 0 (wire_line crlf key value) ->
  _launch_junos_proxy (String.length (wire_line crlf key value) + k) client fd =
  Raised ValueError.
Proof.
  intros Hp Hl Hk Hv Hpre Hs. unfold _launch_junos_proxy, wire_line in *.
  apply sends_app in Hs as [S1 S2].
  rewrite length_append, <- Nat.add_assoc.
  rewrite hs_loop_reads; try assumption; cbn [hs_init msg count pos val];
    [| simpl; lia | lia].
  change ("" +:+ header key value) with (header key value).
  rewrite hs_loop_eol; cbn [pos msg val count];
    [| apply hs_cond_true; cbn [msg count]; [assumption | lia] | exact S2].
  assert (client (0 + String.length (header key value) +
                  (String.length (eol crlf) - 1))%nat = Some LF) as Hlf.
  { now apply sends_eol_lf. }
  unfold hs_body, recv1. cbn [pos msg]. rewrite Hlf.
  change (String.eqb (String LF "") (String CR "")) with false.
  change (String.eqb (String LF "") (String LF "")) with true. cbv iota.
  assert ((find ":" (header key value) =? 0) = false) as ->.
  { apply Z.eqb_neq. rewrite find_colon_zero, Hpre. discriminate. }
  cbn [negb]. cbv iota. unfold split, header.
  rewrite split_go_sep by assumption.
  destruct (split_go_two value "" Hv) as (x & y & l & ->). reflexivity.
Qed.

Lemma hs_body_record (client : socket) (v0 : gmap string pyval) (st st' : hs_state) :
  record_inv v0 (val st) -> hs_body client st = Ok st' -> record_inv v0 (val st').
Proof.
  intros [Hk Hv]. unfold hs_body.
  repeat case_match; intros [= <-]; cbn [val]; try (split; assumption).
  split.
  - intros k Hs. rewrite lookup_insert. case_decide; [eauto | auto].
  - intros k x. rewrite lookup_insert. case_decide; [intros [= <-]; eauto | apply Hv].
Qed.

Lemma hs_loop_record (fuel : nat) (client : socket) (v0 : gmap string pyval)
    (st st' : hs_state) :
  record_inv v0 (val st) -> hs_loop fuel client st = Done st' -> record_inv v0 (val st').
Proof.
  revert st. induction fuel as [|fuel IH]; intros st Hinv; simpl.
  - destruct (hs_cond st); [discriminate | now intros [= <-]].
  - destruct (hs_cond st); [| now intros [= <-]].
    destruct (hs_body client st) as [st1|e] eqn:Hb; [|discriminate].
    apply IH. eapply hs_body_record; eassumption.
Qed.

Lemma record_inv_init : record_inv (val hs_init) (val hs_init).
Proof.
  split; [auto|]. intros k x. unfold hs_init. cbn [val].
  rewrite !lookup_insert. repeat case_decide; intros [= <-]; auto.
Qed.

(** X6: every record the read loop produces has the keys [MSG-ID], [MSG-VER]
    and [DEVICE-ID], and each of its values is [None] or a string. *)
Theorem handshake_record_shape (fuel : nat) (client : socket) (st : hs_state) :
  hs_loop fuel client hs_init = Done st ->
  is_Some (val st !! "MSG-ID") /\ is_Some (val st !! "MSG-VER") /\
  is_Some (val st !! "DEVICE-ID") /\
  (forall k x, val st !! k = Some x -> x = PNone \/ exists s, x = PStr s).
Proof.
  intros H. destruct (hs_loop_record _ _ _ _ _ record_inv_init H) as [Hk Hv].
  repeat split; try apply Hk; try exact Hv; vm_compute; eauto.
Qed.

Lemma hs_cond_facts (st : hs_state) :
  hs_cond st = true -> (String.length (msg st) < 100)%nat /\ 0 < count st.
Proof.
  unfold hs_cond. intros H. apply andb_prop in H as [H1 H2].
  apply Z.ltb_lt in H1, H2. split; lia.
Qed.

Lemma hs_body_measure (client : socket) (st st' : hs_state) (a : ascii) :
  hs_cond st = true -> client (pos st) = Some a -> a <> CR ->
  hs_body client st = Ok st' ->
  hs_measure st' <= hs_measure st - 1 /\ pos st' = (pos st + 1)%nat.
Proof.
  intros Hc Ha Hcr. apply hs_cond_facts in Hc as [Hl Hcnt].
  unfold hs_body, recv1. rewrite Ha.
  assert (String.eqb (String a EmptyString) (String CR EmptyString) = false) as ->.
  { apply String.eqb_neq. congruence. }
  unfold hs_measure.
  repeat case_match; intros [= <-]; cbn [msg count pos String.length];
    rewrite ?length_snoc; split; lia.
Qed.

Lemma hs_body_raises_value_error (client : socket) (st : hs_state) (e : exn) :
  hs_body client st = Raise e -> e = ValueError.
Proof. unfold hs_body. repeat case_match; intros [= <-]; reflexivity. Qed.

(** When every byte arrives and none is a carriage return, the loop has
    left, or raised [ValueError], before the measure is used up. *)
Lemma hs_loop_bounded (client : socket) :
  forall (fuel : nat) (st : hs_state),
    hs_measure st <= Z.of_nat fuel ->
    (forall i, (pos st <= i < pos st + fuel)%nat -> exists a, client i = Some a /\ a <> CR) ->
    (exists st', hs_loop fuel client st = Done st' /\ (pos st' <= pos st + fuel)%nat) \/
    hs_loop fuel client st = Raised ValueError.
Proof.
  induction fuel as [|fuel IH]; intros st Hm Hb; simpl.
  - destruct (hs_cond st) eqn:Hc.
    + apply hs_cond_facts in Hc as [Hl Hcnt]. unfold hs_measure in Hm. lia.
    + left. exists st. split; [reflexivity | lia].
  - destruct (hs_cond st) eqn:Hc.
    + destruct (Hb (pos st)) as (a & Ha & Hcr); [lia|].
      destruct (hs_body client st) as [st1|e] eqn:Hbody.
      * destruct (hs_body_measure _ _ _ _ Hc Ha Hcr Hbody) as [Hm1 Hp1].
        destruct (IH st1) as [(st' & Hd & Hp)|Hr].
        -- lia.
        -- intros i Hi. apply Hb. lia.
        -- left. exists st'. split; [exact Hd | lia].
        -- right. exact Hr.
      * right. f_equal. eapply hs_body_raises_value_error. exact Hbody.
    + left. exists st. split; [reflexivity | lia].
Qed.

(** X7: a peer that keeps sending, with no carriage return among the first
    300 bytes: the call returns or raises [ValueError] within 300 passes,
    and has read at most 300 bytes when it returns. *)
Theorem handshake_ends_within_300 (client : socket) (fd : Z) (k : nat) :
  (forall i, (i < 300)%nat -> exists a, client i = Some a /\ a <> CR) ->
  (exists evs n, _launch_junos_proxy (300 + k) client fd = Done (evs, n) /\ (n <= 300)%nat) \/
  _launch_junos_proxy (300 + k) client fd = Raised ValueError.
Proof.
  intros Hb. unfold _launch_junos_proxy.
  destruct (hs_loop_bounded client 300 hs_init) as [(st & Hd & Hp)|Hr].
  - vm_compute. discriminate.
  - intros i Hi. apply Hb. cbn [hs_init pos] in Hi. lia.
  - rewrite (hs_loop_more_done _ _ _ _ _ Hd).
    assert (device_id_field (val hs_init)) as H0 by (left; reflexivity).
    destruct (hs_loop_device_id _ _ _ _ H0 Hd) as [Hn|(id & Hid)].
    + left. exists [], (pos st). rewrite spawn_worker_none by assumption. auto.
    + left. unfold spawn_worker, getitem. rewrite Hid. cbn [bind].
      destruct (truthy (PStr id)); eauto.
  - right. now rewrite (hs_loop_more_raised _ _ _ _ _ Hr).
Qed.

(** X8: three well-formed headers, none of them with the key [DEVICE-ID]:
    the call returns and no worker is spawned. *)
Theorem handshake_without_device_id (client : socket) (c1 c2 c3 : bool)
    (k1 v1 k2 v2 k3 v3 : string) (fd : Z) (k : nat) :
  well_formed k1 v1 = true -> well_formed k2 v2 = true -> well_formed k3 v3 = true ->
  k1 <> "DEVICE-ID" -> k2 <> "DEVICE-ID" -> k3 <> "DEVICE-ID" ->
  sends client 0 (wire_line c1 k1 v1 +:+ wire_line c2 k2 v2 +:+ wire_line c3 k3 v3) ->
  _launch_junos_proxy
    (String.length (wire_line c1 k1 v1 +:+ wire_line c2 k2 v2 +:+ wire_line c3 k3 v3) + k)
    client fd =
  Done ([], String.length (wire_line c1 k1 v1 +:+ wire_line c2 k2 v2 +:+ wire_line c3 k3 v3)).
Proof.
  intros W1 W2 W3 N1 N2 N3 Hs. unfold _launch_junos_proxy.
  unfold hs_init. rewrite hs_loop_three_lines by assumption. cbn [val pos].
  rewrite spawn_worker_none; [reflexivity|].
  rewrite !lookup_insert_ne by congruence. reflexivity.
Qed.

(** X9: the last header with the key [DEVICE-ID] names the worker, whatever
    the headers before it. *)
Theorem handshake_last_device_id_wins (client : socket) (c1 c2 c3 : bool)
    (k1 v1 k2 v2 id : string) (fd : Z) (k : nat) :
  well_formed k1 v1 = true -> well_formed k2 v2 = true ->
  well_formed "DEVICE-ID" id = true -> id <> "" ->
  sends client 0 (wire_line c1 k1 v1 +:+ wire_line c2 k2 v2 +:+ wire_line c3 "DEVICE-ID" id) ->
  _launch_junos_proxy
    (String.length (wire_line c1 k1 v1 +:+ wire_line c2 k2 v2 +:+
                    wire_line c3 "DEVICE-ID" id) + k)
    client fd =
  Done ([LogDebug "Launching salt-proxy for {0}" [PStr id];
         Popen ["/usr/bin/salt-proxy"; "--proxyid"; id; "--sockfd"; str_of_int fd;
                "--disable-keepalive"]],
        String.length (wire_line c1 k1 v1 +:+ wire_line c2 k2 v2 +:+
                       wire_line c3 "DEVICE-ID" id)).
Proof.
  intros W1 W2 W3 Hne Hs. unfold _launch_junos_proxy.
  unfold hs_init. rewrite hs_loop_three_lines by assumption. cbn [val pos].
  rewrite (spawn_worker_id _ _ id); [reflexivity | apply lookup_insert_eq | assumption].
Qed.

Lemma handshake_header_lines_witness :
  hs_loop (String.length crlf_lines + 0) (of_bytes crlf_lines) hs_init =
  Done {| val := <["X-SERIAL" := PStr "JN12"]>
                   (<["MSG-ID" := PStr "7"]>
                      (<["DEVICE-ID" := PStr "vmx1"]> (val hs_init)));
          msg := ""; count := 0; pos := String.length crlf_lines |}.
Proof.
  apply (handshake_header_lines (of_bytes crlf_lines) true true false
           "DEVICE-ID" "vmx1" "MSG-ID" "7" "X-SERIAL" "JN12" 0);
    try reflexivity.
  vm_compute. repeat split.
Defined.

Lemma handshake_cap_witness :
  _launch_junos_proxy (100 + 0) (of_bytes (hundred +:+ hundred)) 7 = Done ([], 100%nat).
Proof.
  apply (handshake_cap (of_bytes (hundred +:+ hundred)) hundred 7 0); try reflexivity.
  vm_compute. repeat split.
Defined.

Lemma handshake_closed_never_ends_witness :
  _launch_junos_proxy (16 + 1000) (of_bytes ("DEVICE-ID: vmx1" +:+ LFs)) 7 =
  Running ([], 16%nat).
Proof.
  apply (handshake_closed_never_ends (of_bytes ("DEVICE-ID: vmx1" +:+ LFs)) 16
           {| val := <["DEVICE-ID" := PStr "vmx1"]> (val hs_init); msg := ""; count := 2;
              pos := 16 |} 7).
  - vm_compute. reflexivity.
  - reflexivity.
Defined.

Lemma handshake_unsplit_line_raises_witness :
  _launch_junos_proxy (String.length ("" +:+ eol false) + 0) (of_bytes LFs) 7 =
  Raised ValueError.
Proof.
  apply (handshake_unsplit_line_raises false "" (of_bytes LFs) 7 0); try reflexivity.
  - simpl. lia.
  - vm_compute. repeat split.
Defined.

Lemma handshake_second_separator_raises_witness :
  _launch_junos_proxy (String.length (wire_line false "DEVICE-ID" "a: b") + 0)
    (of_bytes (wire_line false "DEVICE-ID" "a: b")) 7 = Raised ValueError.
Proof.
  apply (handshake_second_separator_raises false "DEVICE-ID" "a: b"
           (of_bytes (wire_line false "DEVICE-ID" "a: b")) 7 0); try reflexivity.
  - vm_compute. lia.
  - vm_compute. repeat split.
Defined.

Lemma handshake_record_shape_witness :
  is_Some (val hs_sample !! "MSG-ID") /\ is_Some (val hs_sample !! "MSG-VER") /\
  is_Some (val hs_sample !! "DEVICE-ID") /\
  (forall k x, val hs_sample !! k = Some x -> x = PNone \/ exists s, x = PStr s).
Proof.
  apply (handshake_record_shape 38 (of_bytes three_lines) hs_sample).
  vm_compute. reflexivity.
Defined.

Lemma handshake_ends_within_300_witness :
  (exists evs n, _launch_junos_proxy (300 + 0) (fun _ => Some "x"%char) 7 = Done (evs, n) /\
                 (n <= 300)%nat) \/
  _launch_junos_proxy (300 + 0) (fun _ => Some "x"%char) 7 = Raised ValueError.
Proof.
  apply (handshake_ends_within_300 (fun _ => Some "x"%char) 7 0).
  intros i _. exists "x"%char. split; [reflexivity | discriminate].
Defined.

Lemma handshake_without_device_id_witness :
  _launch_junos_proxy (String.length no_id_lines + 0) (of_bytes no_id_lines) 7 =
  Done ([], String.length no_id_lines).
Proof.
  apply (handshake_without_device_id (of_bytes no_id_lines) false false false
           "MSG-ID" "7" "MSG-VER" "1" "X-SERIAL" "JN12" 7 0);
    try reflexivity; try discriminate.
  vm_compute. repeat split.
Defined.

Lemma handshake_last_device_id_wins_witness :
  _launch_junos_proxy (String.length two_id_lines + 0) (of_bytes two_id_lines) 7 =
  Done ([LogDebug "Launching salt-proxy for {0}" [PStr "vmx2"];
         Popen ["/usr/bin/salt-proxy"; "--proxyid"; "vmx2"; "--sockfd"; str_of_int 7;
                "--disable-keepalive"]],
        String.length two_id_lines).
Proof.
  apply (handshake_last_device_id_wins (of_bytes two_id_lines) false false true
           "DEVICE-ID" "old" "MSG-VER" "1" "vmx2" 7 0);
    try reflexivity; try discriminate.
  vm_compute. repeat split.
Defined.

Lemma alias_username_other (proxy : gmap string pyval) (k : string) :
  k <> "user" -> k <> "username" -> alias_username proxy !! k = proxy !! k.
Proof.
  intros H1 H2. unfold alias_username. destruct (proxy !! "username"); [|reflexivity].
  rewrite lookup_insert_ne, lookup_delete_ne by congruence. reflexivity.
Qed.

Lemma alias_username_username (proxy : gmap string pyval) :
  alias_username proxy !! "username" = None.
Proof.
  unfold alias_username. destruct (proxy !! "username") eqn:E; [|exact E].
  rewrite lookup_insert_ne by done. apply lookup_delete_eq.
Qed.

Lemma alias_username_user (proxy : gmap string pyval) :
  alias_username proxy !! "user" =
  match proxy !! "username" with Some u => Some u | None => proxy !! "user" end.
Proof.
  unfold alias_username. destruct (proxy !! "username"); [apply lookup_insert_eq | reflexivity].
Qed.

Section InitModes.
Context `{sdk : SDK}.

(** [init] with a dictionary under [proxy], unfolded up to the choice of
    the mode. *)
Lemma init_proxy (opts proxy : gmap string pyval) (thisproxy : gmap string regval) :
  opts !! "proxy" = Some (PDict proxy) ->
  let opts' := <["proxy" := PDict (alias_username proxy)]>
                 (<["multiprocessing" := PBool false]> opts) in
  let args := copy_optional (alias_username proxy)
                (<["sock_fd" := default PNone (opts !! "sock_fd")]>
                   {["host" := default PNone (proxy !! "host")]}) in
  init opts thisproxy =
  if unset (opts !! "sock_fd") && unset (proxy !! "host") then
    match proxy !! "port" with
    | Some port =>
        match socket_bind port with
        | Ok _ =>
            {| exit := Listening; opts_after := opts'; args_built := Some args;
               thisproxy_after := thisproxy;
               init_trace := [LogDebug "Opening connection to junos" [];
                              LogDebug "Listen for outbound-ssh Junos devices on port" [];
                              Listen port 5] |}
        | Raise e =>
            {| exit := Failed e; opts_after := opts'; args_built := Some args;
               thisproxy_after := thisproxy;
               init_trace := [LogDebug "Opening connection to junos" [];
                              LogDebug "Listen for outbound-ssh Junos devices on port" []] |}
        end
    | None =>
        {| exit := Failed (KeyError "port"); opts_after := opts'; args_built := Some args;
           thisproxy_after := thisproxy;
           init_trace := [LogDebug "Opening connection to junos" [];
                          LogDebug "Listen for outbound-ssh Junos devices on port" []] |}
    end
  else
    let '(ex, reg, evs) := init_connect args thisproxy in
    {| exit := ex; opts_after := opts'; args_built := Some args; thisproxy_after := reg;
       init_trace := LogDebug "Opening connection to junos" [] :: evs |}.
Proof.
  intros Hp opts' args. unfold init. rewrite (init_args_proxy opts proxy Hp).
  fold opts' args. unfold getitem.
  destruct optional_args_keys as (Kh & Ks & _).
  assert (args !! "sock_fd" = Some (default PNone (opts !! "sock_fd"))) as ->.
  { unfold args. rewrite copy_optional_lookup, Ks. apply lookup_insert_eq. }
  assert (args !! "host" = Some (default PNone (proxy !! "host"))) as ->.
  { unfold args. rewrite copy_optional_lookup, Kh.
    rewrite lookup_insert_ne by done. apply lookup_singleton_eq. }
  assert (forall o, is_None (default PNone o) = unset o) as Hu.
  { intros [[]|]; reflexivity. }
  rewrite !Hu.
  destruct (unset (opts !! "sock_fd") && unset (proxy !! "host")); [|reflexivity].
  unfold proxy_of, getitem, opts'. rewrite lookup_insert_eq. cbn [bind].
  rewrite alias_username_other by done.
  destruct (proxy !! "port") as [port|]; [|reflexivity]. cbn [bind].
  destruct (socket_bind port); reflexivity.
Qed.

(** X10: listener mode: with neither a host nor an inherited socket (missing
    or [None]), and a [proxy.port] that [bind] and [listen] accept, [init]
    listens on that port with a backlog of 5, makes no device and leaves
    [thisproxy] as it was. *)
Theorem init_listens (opts proxy : gmap string pyval) (thisproxy : gmap string regval)
    (port : pyval) :
  opts !! "proxy" = Some (PDict proxy) ->
  unset (proxy !! "host") = true -> unset (opts !! "sock_fd") = true ->
  proxy !! "port" = Some port ->
  socket_bind port = Ok tt ->
  exit (init opts thisproxy) = Listening /\
  init_trace (init opts thisproxy) =
    [LogDebug "Opening connection to junos" [];
     LogDebug "Listen for outbound-ssh Junos devices on port" []; Listen port 5] /\
  thisproxy_after (init opts thisproxy) = thisproxy.
Proof.
  intros Hp Hh Hs Hport Hbind. rewrite (init_proxy opts proxy thisproxy Hp).
  cbv zeta. rewrite Hh, Hs, Hport, Hbind. repeat split.
Qed.

(** X27: listener mode with a [proxy.port] that [bind] or [listen]
    refuses: the exception leaves [init], nothing is listening, no device
    is made and [thisproxy] is as it was. *)
Theorem init_listen_refused (opts proxy : gmap string pyval)
    (thisproxy : gmap string regval) (port : pyval) (e : exn) :
  opts !! "proxy" = Some (PDict proxy) ->
  unset (proxy !! "host") = true -> unset (opts !! "sock_fd") = true ->
  proxy !! "port" = Some port ->
  socket_bind port = Raise e ->
  exit (init opts thisproxy) = Failed e /\
  init_trace (init opts thisproxy) =
    [LogDebug "Opening connection to junos" [];
     LogDebug "Listen for outbound-ssh Junos devices on port" []] /\
  thisproxy_after (init opts thisproxy) = thisproxy.
Proof.
  intros Hp Hh Hs Hport Hbind. rewrite (init_proxy opts proxy thisproxy Hp).
  cbv zeta. rewrite Hh, Hs, Hport, Hbind. repeat split.
Qed.

(** X11: listener mode without [proxy.port]: [KeyError('port')], before any
    socket is listening. *)
Theorem init_listen_without_port (opts proxy : gmap string pyval)
    (thisproxy : gmap string regval) :
  opts !! "proxy" = Some (PDict proxy) ->
  unset (proxy !! "host") = true -> unset (opts !! "sock_fd") = true ->
  proxy !! "port" = None ->
  exit (init opts thisproxy) = Failed (KeyError "port") /\
  init_trace (init opts thisproxy) =
    [LogDebug "Opening connection to junos" [];
     LogDebug "Listen for outbound-ssh Junos devices on port" []] /\
  thisproxy_after (init opts thisproxy) = thisproxy.
Proof.
  intros Hp Hh Hs Hport. rewrite (init_proxy opts proxy thisproxy Hp).
  cbv zeta. rewrite Hh, Hs, Hport. repeat split.
Qed.

Lemma init_connect_trace (args : gmap string pyval) (thisproxy : gmap string regval) :
  exists evs, (init_connect args thisproxy).2 = DeviceNew args :: evs /\
              (init_connect args thisproxy).1.1 <> Listening.
Proof.
  unfold init_connect. repeat case_match; cbn [fst snd]; eauto.
Qed.

(** X12: direct-connect mode: with a host or an inherited socket [init] does
    not listen; the first thing it does is make the device from the
    connection arguments. *)
Theorem init_connects_directly (opts proxy : gmap string pyval)
    (thisproxy : gmap string regval) :
  opts !! "proxy" = Some (PDict proxy) ->
  unset (proxy !! "host") = false \/ unset (opts !! "sock_fd") = false ->
  exists args evs,
    args_built (init opts thisproxy) = Some args /\
    init_trace (init opts thisproxy) =
      LogDebug "Opening connection to junos" [] :: DeviceNew args :: evs /\
    exit (init opts thisproxy) <> Listening.
Proof.
  intros Hp Hset. rewrite (init_proxy opts proxy thisproxy Hp). cbv zeta.
  assert (unset (opts !! "sock_fd") && unset (proxy !! "host") = false) as ->.
  { destruct Hset as [-> | ->]; [apply andb_false_r | reflexivity]. }
  match goal with |- context [init_connect ?a _] =>
    destruct (init_connect_trace a thisproxy) as (evs & Ht & Hx);
    destruct (init_connect a thisproxy) as [[ex reg] evs0] end.
  cbn [fst snd] in *. subst evs0. cbn [args_built init_trace exit]. eauto.
Qed.

(** X13: without a dictionary under [proxy], [init] fails before anything is
    built: [KeyError('proxy')] when the key is missing, [AttributeError]
    when its value has no [keys]. [opts['multiprocessing']] is already
    [False]. *)
Theorem init_without_proxy (opts : gmap string pyval) (thisproxy : gmap string regval) :
  (forall d, opts !! "proxy" <> Some (PDict d)) ->
  exit (init opts thisproxy) =
    Failed (match opts !! "proxy" with None => KeyError "proxy" | Some _ => AttributeError end) /\
  args_built (init opts thisproxy) = None /\
  thisproxy_after (init opts thisproxy) = thisproxy /\
  opts_after (init opts thisproxy) = <["multiprocessing" := PBool false]> opts.
Proof.
  intros Hnd. unfold init, init_args, proxy_of, getitem.
  rewrite lookup_insert_ne by done.
  destruct (opts !! "proxy") as [[]|] eqn:E; cbn [bind]; try (repeat split; fail).
  exfalso. eapply Hnd. reflexivity.
Qed.

(** X14: whatever else happens, [opts['multiprocessing']] is [False] after [init]. *)
Theorem init_multiprocessing_off (opts : gmap string pyval) (thisproxy : gmap string regval) :
  opts_after (init opts thisproxy) !! "multiprocessing" = Some (PBool false).
Proof.
  destruct (init_args opts) as [[o args]|e] eqn:E.
  - destruct (init_args_built _ _ _ thisproxy E) as [_ ->].
    unfold init_args in E. destruct (proxy_of _); [|discriminate].
    cbn [bind] in E. injection E as <- _.
    rewrite lookup_insert_ne by done. apply lookup_insert_eq.
  - unfold init. rewrite E. cbn [opts_after]. apply lookup_insert_eq.
Qed.

End InitModes.

Section InitConnect.
Context `{sdk : SDK}.

Lemma on_conn_insert (reg : gmap string regval) (d : Device)
    (f : Device -> Device * result unit) :
  on_conn (<["conn" := RDev d]> reg) f = (<["conn" := RDev (f d).1]> reg, (f d).2).
Proof.
  unfold on_conn. rewrite lookup_insert_eq. destruct (f d) as [d' r]. cbn [fst snd].
  now rewrite insert_insert_eq.
Qed.

(** The direct-connect branch when every call of the SDK succeeds. *)
Lemma init_connect_ok (args : gmap string pyval) (thisproxy : gmap string regval)
    (d d1 d2 d3 : Device) :
  Device_new args = Ok d ->
  Device_open d = (d1, Ok tt) ->
  Device_bind "cu" d1 = (d2, Ok tt) ->
  Device_bind "sw" d2 = (d3, Ok tt) ->
  init_connect args thisproxy =
  (Returned, <["initialized" := RVal (PBool true)]> (<["conn" := RDev d3]> thisproxy),
   [DeviceNew args; DeviceOpen; DeviceBind "cu"; DeviceBind "sw"]).
Proof.
  intros Hn Ho Hc Hs. unfold init_connect. rewrite Hn.
  rewrite on_conn_insert, Ho. cbn [fst snd].
  rewrite on_conn_insert, Hc. cbn [fst snd].
  rewrite on_conn_insert, Hs. cbn [fst snd]. reflexivity.
Qed.

(** X15: a successful direct connection: [thisproxy] holds the device as
    [open] and the two [bind] calls have left it, [initialized()] is
    [True], [conn()] returns the device and [ping()] its [connected]. *)
Theorem init_stores_session (opts proxy args : gmap string pyval)
    (thisproxy : gmap string regval) (d d1 d2 d3 : Device) :
  opts !! "proxy" = Some (PDict proxy) ->
  unset (proxy !! "host") = false \/ unset (opts !! "sock_fd") = false ->
  args_built (init opts thisproxy) = Some args ->
  Device_new args = Ok d ->
  Device_open d = (d1, Ok tt) ->
  Device_bind "cu" d1 = (d2, Ok tt) ->
  Device_bind "sw" d2 = (d3, Ok tt) ->
  let reg := thisproxy_after (init opts thisproxy) in
  exit (init opts thisproxy) = Returned /\
  reg = <["initialized" := RVal (PBool true)]> (<["conn" := RDev d3]> thisproxy) /\
  initialized reg = RVal (PBool true) /\
  conn reg = Ok (RDev d3) /\
  ping reg = Ok (connected d3).
Proof.
  intros Hp Hset. rewrite (init_proxy opts proxy thisproxy Hp). cbv zeta.
  assert (unset (opts !! "sock_fd") && unset (proxy !! "host") = false) as ->.
  { destruct Hset as [-> | ->]; [apply andb_false_r | reflexivity]. }
  match goal with |- context [init_connect ?a _] => set (a0 := a) end.
  intros Ha Hn Ho Hc Hs.
  assert (a0 = args) as ->.
  { destruct (init_connect a0 thisproxy) as [[? ?] ?]. now injection Ha. }
  rewrite (init_connect_ok args thisproxy d d1 d2 d3 Hn Ho Hc Hs).
  cbn [exit thisproxy_after].
  unfold initialized, ping, conn_device, conn, getitem.
  rewrite lookup_insert_eq, lookup_insert_ne, lookup_insert_eq by done.
  repeat split.
Qed.

(** X16: a failing [open]: its exception leaves [init] as it is. The device is
    in [thisproxy['conn']] already, and [initialized] is not touched. *)
Theorem init_open_fails (opts proxy args : gmap string pyval)
    (thisproxy : gmap string regval) (d d1 : Device) (e : exn) :
  opts !! "proxy" = Some (PDict proxy) ->
  unset (proxy !! "host") = false \/ unset (opts !! "sock_fd") = false ->
  args_built (init opts thisproxy) = Some args ->
  Device_new args = Ok d ->
  Device_open d = (d1, Raise e) ->
  let reg := thisproxy_after (init opts thisproxy) in
  exit (init opts thisproxy) = Failed e /\
  conn reg = Ok (RDev d1) /\
  initialized reg = initialized thisproxy.
Proof.
  intros Hp Hset. rewrite (init_proxy opts proxy thisproxy Hp). cbv zeta.
  assert (unset (opts !! "sock_fd") && unset (proxy !! "host") = false) as ->.
  { destruct Hset as [-> | ->]; [apply andb_false_r | reflexivity]. }
  match goal with |- context [init_connect ?a _] => set (a0 := a) end.
  intros Ha Hn Ho.
  assert (a0 = args) as ->.
  { destruct (init_connect a0 thisproxy) as [[? ?] ?]. now injection Ha. }
  unfold init_connect. rewrite Hn, on_conn_insert, Ho. cbn [fst snd exit thisproxy_after].
  unfold initialized, conn, getitem.
  rewrite lookup_insert_eq, lookup_insert_ne by done. repeat split.
Qed.

(** X17: a failing constructor: [thisproxy] is not touched. *)
Theorem init_device_fails (opts proxy args : gmap string pyval)
    (thisproxy : gmap string regval) (e : exn) :
  opts !! "proxy" = Some (PDict proxy) ->
  unset (proxy !! "host") = false \/ unset (opts !! "sock_fd") = false ->
  args_built (init opts thisproxy) = Some args ->
  Device_new args = Raise e ->
  exit (init opts thisproxy) = Failed e /\
  thisproxy_after (init opts thisproxy) = thisproxy.
Proof.
  intros Hp Hset. rewrite (init_proxy opts proxy thisproxy Hp). cbv zeta.
  assert (unset (opts !! "sock_fd") && unset (proxy !! "host") = false) as ->.
  { destruct Hset as [-> | ->]; [apply andb_false_r | reflexivity]. }
  match goal with |- context [init_connect ?a _] => set (a0 := a) end.
  intros Ha Hn.
  assert (a0 = args) as ->.
  { destruct (init_connect a0 thisproxy) as [[? ?] ?]. now injection Ha. }
  unfold init_connect. rewrite Hn. repeat split.
Qed.

(** X18: the keys of the connection arguments: [host], [sock_fd] and the
    optional keys, [username] never among them. *)
Theorem init_args_keys (opts args : gmap string pyval) (thisproxy : gmap string regval)
    (k : string) :
  args_built (init opts thisproxy) = Some args ->
  is_Some (args !! k) ->
  k = "host" \/ k = "sock_fd" \/ (k ∈ optional_args /\ k <> "username").
Proof.
  intros Hb Hk.
  destruct (init_args opts) as [[o a]|e] eqn:E.
  2:{ unfold init in Hb. rewrite E in Hb. discriminate. }
  destruct (init_args_built _ _ _ thisproxy E) as [Hb' _].
  rewrite Hb' in Hb. injection Hb as ->.
  unfold init_args in E. destruct (proxy_of _) as [proxy|]; [|discriminate].
  cbn [bind] in E. injection E as _ <-.
  rewrite copy_optional_lookup in Hk.
  case_bool_decide as Hin.
  - destruct (decide (k = "username")) as [->|Hne]; [|auto].
    rewrite alias_username_username in Hk.
    destruct (_ !! "sock_fd"); rewrite lookup_insert_ne in Hk by done;
      destruct (proxy !! "host"); rewrite lookup_singleton_ne in Hk by done;
      destruct Hk; discriminate.
  - destruct (decide (k = "sock_fd")) as [->|Hs]; [auto|].
    destruct (decide (k = "host")) as [->|Hh]; [auto|].
    destruct (_ !! "sock_fd"); rewrite lookup_insert_ne in Hk by done;
      destruct (proxy !! "host"); rewrite lookup_singleton_ne in Hk by done;
      destruct Hk; discriminate.
Qed.

(** X19: the optional keys are copied as they are; [user] is taken from
    [username] when [proxy] has one. *)
Theorem init_copies_optional (opts proxy args : gmap string pyval)
    (thisproxy : gmap string regval) :
  opts !! "proxy" = Some (PDict proxy) ->
  args_built (init opts thisproxy) = Some args ->
  (forall k, k ∈ optional_args -> k <> "user" -> k <> "username" ->
             args !! k = proxy !! k) /\
  args !! "user" =
    match proxy !! "username" with Some u => Some u | None => proxy !! "user" end.
Proof.
  intros Hp Hb.
  destruct (init_args_built _ _ _ thisproxy (init_args_proxy opts proxy Hp)) as [Hb' _].
  rewrite Hb' in Hb. injection Hb as <-.
  assert (forall k, k ∈ optional_args ->
            (<["sock_fd" := default PNone (opts !! "sock_fd")]>
               ({["host" := default PNone (proxy !! "host")]} : gmap string pyval)) !! k = None)
    as Hnone.
  { intros k Hin. destruct optional_args_keys as (Kh & Ks & _).
    rewrite lookup_insert_ne; [rewrite lookup_singleton_ne; [reflexivity|] |];
      intros <-; [rewrite bool_decide_eq_true_2 in Kh by assumption
                 | rewrite bool_decide_eq_true_2 in Ks by assumption]; discriminate. }
  split.
  - intros k Hin Hu Hn. rewrite copy_optional_lookup, bool_decide_eq_true_2 by assumption.
    rewrite alias_username_other, Hnone by assumption. now destruct (proxy !! k).
  - destruct optional_args_keys as (_ & _ & Ku & _).
    rewrite copy_optional_lookup, Ku, alias_username_user.
    rewrite Hnone by (eapply bool_decide_eq_true_1; exact Ku).
    destruct (proxy !! "username"); [reflexivity|]. now destruct (proxy !! "user").
Qed.

End InitConnect.

Section Facts.
Context `{sdk : SDK}.

Lemma plain_objects_spec (l : list (string * fact)) :
  forall m0 m' : gmap string fact,
    NoDup l.*1 -> plain_objects l m0 = Ok m' ->
    forall re,
      (exists entry entry', (re, entry) ∈ l /\ plain_object entry = Ok entry' /\
                            m' !! re = Some entry') \/
      ((re ∉ l.*1) /\ m' !! re = m0 !! re).
Proof.
  induction l as [|[re0 entry0] l IH]; intros m0 m' Hnd H re; cbn [plain_objects] in H.
  - injection H as <-. right. split; [apply not_elem_of_nil | reflexivity].
  - destruct (plain_object entry0) as [entry0'|] eqn:E0; [|discriminate].
    cbn [bind] in H. cbn [fmap list_fmap fst] in Hnd. apply NoDup_cons in Hnd as [Hnin Hnd].
    destruct (IH _ _ Hnd H re) as [(entry & entry' & Hin & Hp & Hl)|[Hnot Hl]].
    + left. exists entry, entry'. split; [now apply list_elem_of_further | auto].
    + destruct (decide (re = re0)) as [->|Hne].
      * left. exists entry0, entry0'. rewrite lookup_insert_eq in Hl.
        split; [apply list_elem_of_here | auto].
      * right. rewrite lookup_insert_ne in Hl by congruence.
        split; [|exact Hl]. cbn [fmap list_fmap fst]. apply not_elem_of_cons. auto.
Qed.

Lemma plain_object_inv (entry entry' : fact) :
  plain_object entry = Ok entry' ->
  exists native e obj o,
    entry = FMap native e /\ e !! "object" = Some obj /\ dict_of obj = Ok o /\
    entry' = FMap native (<["object" := FMap false o]> e).
Proof.
  unfold plain_object, getitem. destruct entry as [| | | |native e]; try discriminate.
  destruct (e !! "object") as [obj|] eqn:Ho; [|discriminate]. cbn [bind].
  destruct (dict_of obj) as [o|] eqn:Hd; [|discriminate]. cbn [bind].
  intros [= <-]. eauto 10.
Qed.

(** What a successful [get_serialized_facts] has done, step by step. *)
Lemma get_serialized_facts_inv (thisproxy : gmap string regval) (d : Device)
    (r : gmap string fact) :
  thisproxy !! "conn" = Some (RDev d) ->
  get_serialized_facts thisproxy = Ok r ->
  exists f1,
    match facts d !! "version_info" with
    | Some x => exists m, dict_of x = Ok m /\ f1 = <["version_info" := FMap false m]> (facts d)
    | None => f1 = facts d
    end /\
    match f1 !! "junos_info" with
    | Some j => exists j', plain_junos_info j = Ok j' /\ r = <["junos_info" := j']> f1
    | None => r = f1
    end.
Proof.
  intros Hc. unfold get_serialized_facts, conn_device, conn, getitem. rewrite Hc. cbn [bind].
  destruct (facts d !! "version_info") as [x|] eqn:Hv.
  - destruct (dict_of x) as [m|] eqn:Hd; [|discriminate]. cbn [bind].
    intros H. exists (<["version_info" := FMap false m]> (facts d)). split; [eauto|].
    destruct (_ !! "junos_info") as [j|]; [|now injection H].
    destruct (plain_junos_info j) as [j'|]; [|discriminate]. injection H as <-. eauto.
  - cbn [bind]. intros H. exists (facts d). split; [reflexivity|].
    destruct (_ !! "junos_info") as [j|]; [|now injection H].
    destruct (plain_junos_info j) as [j'|]; [|discriminate]. injection H as <-. eauto.
Qed.

(** X20: the facts other than [version_info] and [junos_info] are returned as
    the device has them, and the result has the keys of the device's
    facts, no more and no fewer. *)
Theorem serialized_facts_pass_through (thisproxy : gmap string regval) (d : Device)
    (r : gmap string fact) :
  thisproxy !! "conn" = Some (RDev d) ->
  get_serialized_facts thisproxy = Ok r ->
  (forall k, k <> "version_info" -> k <> "junos_info" -> r !! k = facts d !! k) /\
  (forall k, is_Some (r !! k) <-> is_Some (facts d !! k)).
Proof.
  intros Hc Hr. destruct (get_serialized_facts_inv _ _ _ Hc Hr) as (f1 & H1 & H2).
  assert ((forall k, k <> "version_info" -> f1 !! k = facts d !! k) /\
          (forall k, is_Some (f1 !! k) <-> is_Some (facts d !! k))) as [Hf1 Hd1].
  { destruct (facts d !! "version_info") as [x|] eqn:Hv.
    - destruct H1 as (m & _ & ->). split.
      + intros k Hk. now rewrite lookup_insert_ne.
      + intros k. rewrite lookup_insert. case_decide as E; [subst k|reflexivity].
        rewrite Hv. split; eauto.
    - subst f1. split; [reflexivity | reflexivity]. }
  destruct (f1 !! "junos_info") as [j|] eqn:Hj.
  - destruct H2 as (j' & _ & ->). split.
    + intros k Hv Hk. rewrite lookup_insert_ne by congruence. now apply Hf1.
    + intros k. rewrite lookup_insert. case_decide as E; [subst k|apply Hd1].
      rewrite <- Hd1, Hj. split; eauto.
  - subst r. split; [intros; now apply Hf1 | apply Hd1].
Qed.

(** X21: [version_info] comes back as a plain dictionary with the entries of
    the device's. *)
Theorem serialized_version_info (thisproxy : gmap string regval) (d : Device)
    (r : gmap string fact) (x : fact) :
  thisproxy !! "conn" = Some (RDev d) ->
  get_serialized_facts thisproxy = Ok r ->
  facts d !! "version_info" = Some x ->
  exists m, dict_of x = Ok m /\ r !! "version_info" = Some (FMap false m).
Proof.
  intros Hc Hr Hv. destruct (get_serialized_facts_inv _ _ _ Hc Hr) as (f1 & H1 & H2).
  rewrite Hv in H1. destruct H1 as (m & Hd & ->). exists m. split; [exact Hd|].
  destruct (_ !! "junos_info") as [j|].
  - destruct H2 as (j' & _ & ->). rewrite lookup_insert_ne by done. apply lookup_insert_eq.
  - subst r. apply lookup_insert_eq.
Qed.

(** X22: under [junos_info], the [object] of every routing engine comes back
    as a plain dictionary with the same entries; the rest of each
    routing engine's entry, and the set of routing engines, are kept. *)
Theorem serialized_junos_info (thisproxy : gmap string regval) (d : Device)
    (r : gmap string fact) (native : bool) (m : gmap string fact) :
  thisproxy !! "conn" = Some (RDev d) ->
  get_serialized_facts thisproxy = Ok r ->
  facts d !! "junos_info" = Some (FMap native m) ->
  exists m',
    r !! "junos_info" = Some (FMap native m') /\
    forall re,
      match m !! re with
      | None => m' !! re = None
      | Some entry =>
          exists n e obj o,
            entry = FMap n e /\ e !! "object" = Some obj /\ dict_of obj = Ok o /\
            m' !! re = Some (FMap n (<["object" := FMap false o]> e))
      end.
Proof.
  intros Hc Hr Hj. destruct (get_serialized_facts_inv _ _ _ Hc Hr) as (f1 & H1 & H2).
  assert (f1 !! "junos_info" = Some (FMap native m)) as Hj1.
  { destruct (facts d !! "version_info").
    - destruct H1 as (? & _ & ->). now rewrite lookup_insert_ne.
    - now subst f1. }
  rewrite Hj1 in H2. destruct H2 as (j' & Hp & ->).
  cbn [plain_junos_info] in Hp.
  destruct (plain_objects (map_to_list m) m) as [m'|] eqn:Hm; [|discriminate].
  injection Hp as <-. exists m'. split; [apply lookup_insert_eq|].
  intros re.
  destruct (plain_objects_spec _ _ _ (NoDup_fst_map_to_list m) Hm re)
    as [(entry & entry' & Hin & Hpo & Hl)|[Hnot Hl]].
  - apply elem_of_map_to_list in Hin. rewrite Hin.
    destruct (plain_object_inv _ _ Hpo) as (n & e & obj & o & -> & Ho & Hd & ->). eauto 10.
  - destruct (m !! re) as [entry|] eqn:E; [|now rewrite Hl].
    exfalso. apply Hnot. apply list_elem_of_fmap. exists (re, entry).
    split; [reflexivity | now apply elem_of_map_to_list].
Qed.

(** X23: [shutdown] leaves every key of [thisproxy] in place: [initialized()]
    answers as before, and [conn] is there exactly when it was. *)
Theorem shutdown_keeps_registry (opts : gmap string pyval) (thisproxy : gmap string regval) :
  let reg := (shutdown opts thisproxy).1.2 in
  (forall k, k <> "conn" -> reg !! k = thisproxy !! k) /\
  (is_Some (reg !! "conn") <-> is_Some (thisproxy !! "conn")) /\
  initialized reg = initialized thisproxy.
Proof.
  cbv zeta. unfold shutdown.
  destruct (getitem opts "id"); cbn [fst snd]; [|auto].
  destruct (conn_device thisproxy) as [d|e] eqn:Hd; cbn [fst snd]; [|auto].
  unfold conn_device, conn, getitem in Hd.
  destruct (thisproxy !! "conn") as [[d0|]|] eqn:Hc; try discriminate.
  unfold on_conn. rewrite Hc. destruct (Device_close d0) as [d' r]. cbn [fst snd].
  unfold initialized. rewrite lookup_insert_eq.
  split; [|split].
  - intros k Hk. now rewrite lookup_insert_ne.
  - split; eauto.
  - now rewrite lookup_insert_ne.
Qed.

End Facts.

(** ** The accept loop *)

(** Connections served completely are followed by the rest. *)
Lemma accept_loop_app (fuel : nat) (pre post : list (socket * Z)) (evs : list event) :
  accept_loop fuel pre = (evs, Accepting) ->
  accept_loop fuel (pre ++ post) =
  ((evs ++ (accept_loop fuel post).1)%list, (accept_loop fuel post).2).
Proof.
  revert evs. induction pre as [|[client fd] pre IH]; intros evs; cbn [accept_loop app].
  - intros [= <-]. now destruct (accept_loop fuel post).
  - destruct (_launch_junos_proxy fuel client fd) as [[evs0 n]| |]; try discriminate.
    destruct (accept_loop fuel pre) as [evs1 e1]. intros [= <- ->].
    rewrite (IH evs1 eq_refl). cbn [fst snd]. now rewrite app_assoc.
Qed.

(** X24: when every handshake returns, the connections are served one after
    the other: the events are those of the calls, in the order of the
    connections, and the loop is back in [accept]. *)
Theorem accept_loop_serves_in_order (fuel : nat) (conns : list (socket * Z)) :
  Forall (fun c => exists r, _launch_junos_proxy fuel c.1 c.2 = Done r) conns ->
  accept_loop fuel conns =
  (concat (map (fun c => match _launch_junos_proxy fuel c.1 c.2 with
                         | Done (evs, _) => evs
                         | _ => []
                         end) conns),
   Accepting).
Proof.
  induction 1 as [|[client fd] conns [[evs n] Hr] _ IH]; [reflexivity|].
  cbn [accept_loop map concat fst snd] in *. rewrite Hr, IH. reflexivity.
Qed.

(** X25: an exception in one handshake leaves the loop, and [init] with it:
    no connection after that one is served. *)
Theorem accept_loop_raise_ends_listener (fuel : nat) (pre post : list (socket * Z))
    (evs : list event) (client : socket) (fd : Z) (e : exn) :
  accept_loop fuel pre = (evs, Accepting) ->
  _launch_junos_proxy fuel client fd = Raised e ->
  accept_loop fuel (pre ++ (client, fd) :: post) = (evs, Escaped e).
Proof.
  intros Hpre Hr. rewrite (accept_loop_app _ _ _ _ Hpre).
  cbn [accept_loop]. rewrite Hr. cbn [fst snd]. now rewrite app_nil_r.
Qed.

(** X26: a handshake that has not ended keeps the loop: no connection after
    that one is served meanwhile. *)
Theorem accept_loop_stalls (fuel : nat) (pre post : list (socket * Z))
    (evs : list event) (client : socket) (fd : Z) (r : list event * nat) :
  accept_loop fuel pre = (evs, Accepting) ->
  _launch_junos_proxy fuel client fd = Running r ->
  accept_loop fuel (pre ++ (client, fd) :: post) = (evs, Reading).
Proof.
  intros Hpre Hr. rewrite (accept_loop_app _ _ _ _ Hpre).
  cbn [accept_loop]. rewrite Hr. cbn [fst snd]. now rewrite app_nil_r.
Qed.

Lemma init_listens_witness :
  exit (init (sdk := mock_sdk (Ok tt)) cfg_listen ∅) = Listening /\
  init_trace (init (sdk := mock_sdk (Ok tt)) cfg_listen ∅) =
    [LogDebug "Opening connection to junos" [];
     LogDebug "Listen for outbound-ssh Junos devices on port" []; Listen (PInt 2200) 5] /\
  thisproxy_after (init (sdk := mock_sdk (Ok tt)) cfg_listen ∅) = ∅.
Proof.
  apply (init_listens (sdk := mock_sdk (Ok tt)) cfg_listen {["port" := PInt 2200]} ∅
           (PInt 2200)); reflexivity.
Defined.

Lemma init_listen_without_port_witness :
  exit (init (sdk := mock_sdk (Ok tt)) cfg_no_port ∅) = Failed (KeyError "port") /\
  init_trace (init (sdk := mock_sdk (Ok tt)) cfg_no_port ∅) =
    [LogDebug "Opening connection to junos" [];
     LogDebug "Listen for outbound-ssh Junos devices on port" []] /\
  thisproxy_after (init (sdk := mock_sdk (Ok tt)) cfg_no_port ∅) = ∅.
Proof.
  apply (init_listen_without_port (sdk := mock_sdk (Ok tt)) cfg_no_port ∅ ∅); reflexivity.
Defined.

Lemma init_connects_directly_witness :
  exists args evs,
    args_built (init (sdk := mock_sdk (Ok tt)) cfg_host ∅) = Some args /\
    init_trace (init (sdk := mock_sdk (Ok tt)) cfg_host ∅) =
      LogDebug "Opening connection to junos" [] :: DeviceNew args :: evs /\
    exit (init (sdk := mock_sdk (Ok tt)) cfg_host ∅) <> Listening.
Proof.
  apply (init_connects_directly (sdk := mock_sdk (Ok tt)) cfg_host
           {["host" := PStr "r1.example.net"]} ∅); [reflexivity|].
  left. reflexivity.
Defined.

Lemma init_without_proxy_witness :
  exit (init (sdk := mock_sdk (Ok tt)) ∅ ∅) = Failed (KeyError "proxy") /\
  args_built (init (sdk := mock_sdk (Ok tt)) ∅ ∅) = None /\
  thisproxy_after (init (sdk := mock_sdk (Ok tt)) ∅ ∅) = ∅ /\
  opts_after (init (sdk := mock_sdk (Ok tt)) ∅ ∅) = <["multiprocessing" := PBool false]> ∅.
Proof.
  refine (init_without_proxy (sdk := mock_sdk (Ok tt)) ∅ ∅ _).
  intros d. rewrite lookup_empty. discriminate.
Defined.

Lemma init_stores_session_witness :
  exit (init (sdk := mock_sdk (Ok tt)) cfg_host ∅) = Returned /\
  thisproxy_after (init (sdk := mock_sdk (Ok tt)) cfg_host ∅) =
    <["initialized" := RVal (PBool true)]>
      (<["conn" := RDev (sdk := mock_sdk (Ok tt)) host_args]> ∅) /\
  initialized (thisproxy_after (init (sdk := mock_sdk (Ok tt)) cfg_host ∅)) =
    RVal (PBool true) /\
  conn (thisproxy_after (init (sdk := mock_sdk (Ok tt)) cfg_host ∅)) =
    Ok (RDev (sdk := mock_sdk (Ok tt)) host_args) /\
  ping (thisproxy_after (init (sdk := mock_sdk (Ok tt)) cfg_host ∅)) = Ok true.
Proof.
  apply (init_stores_session (sdk := mock_sdk (Ok tt)) cfg_host
           {["host" := PStr "r1.example.net"]} host_args ∅
           host_args host_args host_args host_args);
    try reflexivity; try (left; reflexivity); vm_compute; reflexivity.
Defined.

Lemma init_open_fails_witness :
  exit (init (sdk := stub_sdk None (Raise (SdkError "ConnectRefusedError")) ∅) cfg_host ∅) =
    Failed (SdkError "ConnectRefusedError") /\
  conn (thisproxy_after
          (init (sdk := stub_sdk None (Raise (SdkError "ConnectRefusedError")) ∅) cfg_host ∅)) =
    Ok (RDev (sdk := stub_sdk None (Raise (SdkError "ConnectRefusedError")) ∅) host_args) /\
  initialized (thisproxy_after
          (init (sdk := stub_sdk None (Raise (SdkError "ConnectRefusedError")) ∅) cfg_host ∅)) =
    initialized (sdk := stub_sdk None (Raise (SdkError "ConnectRefusedError")) ∅) ∅.
Proof.
  apply (init_open_fails (sdk := stub_sdk None (Raise (SdkError "ConnectRefusedError")) ∅)
           cfg_host {["host" := PStr "r1.example.net"]} host_args ∅ host_args host_args
           (SdkError "ConnectRefusedError"));
    try reflexivity; try (left; reflexivity); vm_compute; reflexivity.
Defined.

Lemma init_device_fails_witness :
  exit (init (sdk := stub_sdk (Some TypeError) (Ok tt) ∅) cfg_host ∅) = Failed TypeError /\
  thisproxy_after (init (sdk := stub_sdk (Some TypeError) (Ok tt) ∅) cfg_host ∅) = ∅.
Proof.
  apply (init_device_fails (sdk := stub_sdk (Some TypeError) (Ok tt) ∅)
           cfg_host {["host" := PStr "r1.example.net"]} host_args ∅ TypeError);
    try reflexivity; try (left; reflexivity); vm_compute; reflexivity.
Defined.

Lemma init_args_keys_witness :
  "user" = "host" \/ "user" = "sock_fd" \/ ("user" ∈ optional_args /\ "user" <> "username").
Proof.
  apply (init_args_keys (sdk := mock_sdk (Ok tt)) cfg_username
           (<["user" := PStr "x"]> host_args) ∅ "user").
  - vm_compute. reflexivity.
  - vm_compute. eauto.
Defined.

Lemma init_copies_optional_witness :
  (forall k, k ∈ optional_args -> k <> "user" -> k <> "username" ->
             (<["passwd" := PStr "secret"]> host_args : gmap string pyval) !! k =
             (<["passwd" := PStr "secret"]> {["host" := PStr "r1.example.net"]}
                : gmap string pyval) !! k) /\
  (<["passwd" := PStr "secret"]> host_args : gmap string pyval) !! "user" =
    match (<["passwd" := PStr "secret"]> {["host" := PStr "r1.example.net"]}
             : gmap string pyval) !! "username" with
    | Some u => Some u
    | None => (<["passwd" := PStr "secret"]> {["host" := PStr "r1.example.net"]}
                 : gmap string pyval) !! "user"
    end.
Proof.
  apply (init_copies_optional (sdk := mock_sdk (Ok tt)) cfg_passwd
           (<["passwd" := PStr "secret"]> {["host" := PStr "r1.example.net"]})
           (<["passwd" := PStr "secret"]> host_args) ∅).
  - reflexivity.
  - vm_compute. reflexivity.
Defined.

Lemma serialized_facts_pass_through_witness :
  (forall k, k <> "version_info" -> k <> "junos_info" ->
             sample_serialized !! k = sample_facts !! k) /\
  (forall k, is_Some (sample_serialized !! k) <-> is_Some (sample_facts !! k)).
Proof.
  refine (serialized_facts_pass_through (sdk := stub_sdk None (Ok tt) sample_facts)
            sample_session ∅ sample_serialized _ _); vm_compute; reflexivity.
Defined.

Lemma serialized_version_info_witness :
  exists m, dict_of (FMap true sample_version) = Ok m /\
            sample_serialized !! "version_info" = Some (FMap false m).
Proof.
  refine (serialized_version_info (sdk := stub_sdk None (Ok tt) sample_facts)
            sample_session ∅ sample_serialized (FMap true sample_version) _ _ _);
    vm_compute; reflexivity.
Defined.

Lemma serialized_junos_info_witness :
  exists m',
    sample_serialized !! "junos_info" = Some (FMap false m') /\
    forall re,
      match ({["re0" := FMap false sample_re0]} : gmap string fact) !! re with
      | None => m' !! re = None
      | Some entry =>
          exists n e obj o,
            entry = FMap n e /\ e !! "object" = Some obj /\ dict_of obj = Ok o /\
            m' !! re = Some (FMap n (<["object" := FMap false o]> e))
      end.
Proof.
  refine (serialized_junos_info (sdk := stub_sdk None (Ok tt) sample_facts)
            sample_session ∅ sample_serialized false {["re0" := FMap false sample_re0]}
            _ _ _); vm_compute; reflexivity.
Defined.

Lemma accept_loop_serves_in_order_witness :
  accept_loop 40 served =
  (concat (map (fun c => match _launch_junos_proxy 40 c.1 c.2 with
                         | Done (evs, _) => evs
                         | _ => []
                         end) served),
   Accepting).
Proof.
  apply (accept_loop_serves_in_order 40 served).
  repeat constructor; eexists; vm_compute; reflexivity.
Defined.

Lemma accept_loop_raise_ends_listener_witness :
  accept_loop 40 (served ++ (of_bytes garbage_first, 9) :: [(of_bytes three_lines, 10)]) =
  ([LogDebug "Launching salt-proxy for {0}" [PStr "vmx1"];
    Popen ["/usr/bin/salt-proxy"; "--proxyid"; "vmx1"; "--sockfd"; "7";
           "--disable-keepalive"]],
   Escaped ValueError).
Proof.
  apply (accept_loop_raise_ends_listener 40 served [(of_bytes three_lines, 10)]);
    vm_compute; reflexivity.
Defined.

Lemma accept_loop_stalls_witness :
  accept_loop 40 (served ++ (of_bytes "", 9) :: [(of_bytes three_lines, 10)]) =
  ([LogDebug "Launching salt-proxy for {0}" [PStr "vmx1"];
    Popen ["/usr/bin/salt-proxy"; "--proxyid"; "vmx1"; "--sockfd"; "7";
           "--disable-keepalive"]],
   Reading).
Proof.
  apply (accept_loop_stalls 40 served [(of_bytes three_lines, 10)] _ (of_bytes "") 9
           ([], 0%nat));
    vm_compute; reflexivity.
Defined.

(** ** Before a device is stored *)

Section NoHandle.
Context `{sdk : SDK}.

(** When [open] is not called, the direct-connect branch has stored
    nothing: the constructor has raised. *)
Lemma init_connect_no_open (args : gmap string pyval) (thisproxy : gmap string regval) :
  DeviceOpen ∉ (init_connect args thisproxy).2 ->
  (init_connect args thisproxy).1.2 = thisproxy.
Proof.
  unfold init_connect. destruct (Device_new args); [|reflexivity].
  intros H. exfalso. apply H.
  repeat case_match; cbn [snd]; apply list_elem_of_further, list_elem_of_here.
Qed.

(** A call of [init] in which [open] is not called leaves [thisproxy] as
    it was. *)
Lemma init_no_open (opts : gmap string pyval) (thisproxy : gmap string regval) :
  DeviceOpen ∉ init_trace (init opts thisproxy) ->
  thisproxy_after (init opts thisproxy) = thisproxy.
Proof.
  unfold init. destruct (init_args opts) as [[o args]|]; [|reflexivity].
  destruct (getitem args "sock_fd"); [|reflexivity].
  destruct (getitem args "host"); [|reflexivity].
  destruct (is_None _ && is_None _).
  - destruct (bind _ _); reflexivity.
  - pose proof (init_connect_no_open args thisproxy) as Hc.
    destruct (init_connect args thisproxy) as [[ex reg] evs]. cbn [fst snd] in *.
    cbn [init_trace thisproxy_after]. intros H. apply Hc.
    intros Hin. apply H. now apply list_elem_of_further.
Qed.

(** Without a handle, [shutdown] leaves [thisproxy] as it was. *)
Lemma shutdown_no_conn (opts : gmap string pyval) (thisproxy : gmap string regval) :
  thisproxy !! "conn" = None -> (shutdown opts thisproxy).1.2 = thisproxy.
Proof.
  intros H. unfold shutdown, conn_device, conn, getitem. rewrite H.
  destruct (opts !! "id"); reflexivity.
Qed.

Lemma no_handle_conn (thisproxy : gmap string regval) :
  no_handle thisproxy -> thisproxy !! "conn" = None.
Proof.
  induction 1 as [|opts reg _ IH Hopen|opts reg _ IH].
  - apply lookup_empty.
  - now rewrite init_no_open.
  - now rewrite shutdown_no_conn.
Qed.

(** C7, as the code has it: [init] stores the device before it calls
    [open]. In the registry states in which no device has come out of
    the constructor yet (the start of the process, and what calls of
    [init] that end before [open] is called, and calls of [shutdown],
    make of it) each of [conn], [get_serialized_facts] and [ping] raises
    [KeyError 'conn']. *)
Theorem no_handle_missing_key (thisproxy : gmap string regval) :
  no_handle thisproxy ->
  conn thisproxy = Raise (KeyError "conn") /\
  get_serialized_facts thisproxy = Raise (KeyError "conn") /\
  ping thisproxy = Raise (KeyError "conn").
Proof.
  intros H. apply no_session_missing_key. now apply no_handle_conn.
Qed.

End NoHandle.

(** A constructor that raises: nothing is stored by the call. *)
Lemma no_handle_missing_key_witness :
  conn (sdk := stub_sdk (Some TypeError) (Ok tt) ∅)
    (thisproxy_after (init (sdk := stub_sdk (Some TypeError) (Ok tt) ∅) cfg_host ∅)) =
    Raise (KeyError "conn") /\
  get_serialized_facts (sdk := stub_sdk (Some TypeError) (Ok tt) ∅)
    (thisproxy_after (init (sdk := stub_sdk (Some TypeError) (Ok tt) ∅) cfg_host ∅)) =
    Raise (KeyError "conn") /\
  ping (sdk := stub_sdk (Some TypeError) (Ok tt) ∅)
    (thisproxy_after (init (sdk := stub_sdk (Some TypeError) (Ok tt) ∅) cfg_host ∅)) =
    Raise (KeyError "conn").
Proof.
  apply (no_handle_missing_key (sdk := stub_sdk (Some TypeError) (Ok tt) ∅)).
  apply (no_handle_init (sdk := stub_sdk (Some TypeError) (Ok tt) ∅));
    [apply no_handle_start|].
  assert (init_trace (init (sdk := stub_sdk (Some TypeError) (Ok tt) ∅) cfg_host ∅) =
          [LogDebug "Opening connection to junos" []; DeviceNew host_args]) as ->
    by (vm_compute; reflexivity).
  intros H. apply elem_of_cons in H as [H|H]; [discriminate|].
  apply elem_of_cons in H as [H|H]; [discriminate|]. now apply elem_of_nil in H.
Defined.

(** C7 as stated fails: when [open] raises, [init] has not succeeded and
    [initialized()] is [False], yet the device is stored: [conn()] returns
    it and [ping()] returns its [connected]. *)
Lemma handle_stored_after_failed_open :
  exit (init (sdk := refusing_sdk) cfg_host ∅) = Failed (SdkError "ConnectRefusedError") /\
  initialized (thisproxy_after (init (sdk := refusing_sdk) cfg_host ∅)) = RVal (PBool false) /\
  conn (thisproxy_after (init (sdk := refusing_sdk) cfg_host ∅)) =
    Ok (RDev (sdk := refusing_sdk) host_args) /\
  ping (thisproxy_after (init (sdk := refusing_sdk) cfg_host ∅)) = Ok false.
Proof. repeat apply conj; vm_compute; reflexivity. Qed.

Lemma init_listen_refused_witness :
  exit (init (sdk := mock_sdk (Ok tt)) cfg_bad_port ∅) = Failed TypeError /\
  init_trace (init (sdk := mock_sdk (Ok tt)) cfg_bad_port ∅) =
    [LogDebug "Opening connection to junos" [];
     LogDebug "Listen for outbound-ssh Junos devices on port" []] /\
  thisproxy_after (init (sdk := mock_sdk (Ok tt)) cfg_bad_port ∅) = ∅.
Proof.
  apply (init_listen_refused (sdk := mock_sdk (Ok tt)) cfg_bad_port
           {["port" := PStr "ssh"]} ∅ (PStr "ssh") TypeError); reflexivity.
Defined.
